(** * WebMarket API: the catalog query engine and the cart store

    A shallow embedding of [backend/main.py]: the in-memory catalog
    [templates_db], the process-wide cart [cart_db] and the request handlers
    that read and mutate them.  The two globals are passed explicitly: a
    handler that reads the catalog takes it as [db], whose value at run
    time is the seed list [templates_db]; a handler that touches the cart
    takes the cart as an argument and returns the new cart next to its
    response.  A handler that raises [HTTPException], or whose parameters
    FastAPI rejects before the body runs, returns [Err].

    Python values are modelled as follows: [int] as [Z]; [float] as the
    kernel's binary64 [float]; [str] as [string] restricted to ASCII, so
    that [str.lower] is the ASCII case mapping; [list] as [list]; the
    [dict]s of [templates_db] and [cart_db] as records with the same
    keys. *)

From Stdlib Require Import List ZArith Bool Lia Ascii String Floats.
From Stdlib Require Import Permutation Sorted.
Import ListNotations.

#[local] Set Warnings "-inexact-float".
#[local] Open Scope string_scope.
#[local] Open Scope list_scope.
#[local] Open Scope Z_scope.

(** ** Python primitives used by the handlers *)

Module Py.

(** [str.lower] on ASCII text: [A]..[Z] move to [a]..[z].  Text beyond
    ASCII, where [str.lower] maps more characters, is outside this
    model. *)
Definition lower_ascii (c : ascii) : ascii :=
  let n := nat_of_ascii c in
  if (Nat.leb 65 n && Nat.leb n 90)%bool then ascii_of_nat (n + 32) else c.

Fixpoint lower (s : string) : string :=
  match s with
  | EmptyString => EmptyString
  | String c s' => String (lower_ascii c) (lower s')
  end.

(** [needle in hay] for two [str]: some suffix of [hay] starts with
    [needle]. *)
Fixpoint contains (needle hay : string) : bool :=
  String.prefix needle hay ||
  match hay with
  | EmptyString => false
  | String _ hay' => contains needle hay'
  end.

(** Truth value of an [Optional[str]]: [None] and [""] are false. *)
Definition truthy (s : option string) : bool :=
  match s with
  | None => false
  | Some s => negb (String.eqb s "")
  end.

Definition len {A} (l : list A) : Z := Z.of_nat (List.length l).

(** A slice bound as [list.__getitem__] normalises it against the length
    [n]: a negative bound counts from the end, and the result is clamped
    into [0..n]. *)
Definition slice_bound (n i : Z) : Z :=
  if i <? 0 then Z.max 0 (i + n) else Z.min i n.

(** [l[lo:hi]] *)
Definition slice {A} (l : list A) (lo hi : Z) : list A :=
  let a := slice_bound (len l) lo in
  let b := slice_bound (len l) hi in
  firstn (Z.to_nat (b - a)) (skipn (Z.to_nat a) l).

(** [l[:hi]] *)
Definition slice_to {A} (l : list A) (hi : Z) : list A := slice l 0 hi.

(** [next((x for x in l if p(x)), None)] *)
Definition next {A} (p : A -> bool) (l : list A) : option A := find p l.

(** In-place update of the object that [next] returned: the first element
    of [l] that satisfies [p] is replaced by [f] of it, where it stands. *)
Fixpoint modify_first {A} (p : A -> bool) (f : A -> A) (l : list A) : list A :=
  match l with
  | [] => []
  | x :: l' => if p x then f x :: l' else x :: modify_first p f l'
  end.

(** [list.sort(key=..., reverse=...)], given the comparison [lt a b] that
    stands for [key(a) < key(b)].  The sort is stable and compares with
    [<] only.  It is modelled by stable insertion: elements are taken
    from left to right and each one is placed behind every element
    already placed that it is not smaller than.  Where [<] is a strict weak
    order on the keys this is the only list a stable sort can return
    ([SortFacts.sort_forward_unique] below), whatever way CPython finds it.
    As in CPython, a reverse sort reverses the list, sorts it forward and
    reverses the result, which keeps equal keys in their original
    order. *)
Section Sort.
Context {A : Type} (lt : A -> A -> bool).

Fixpoint insert (x : A) (l : list A) : list A :=
  match l with
  | [] => [x]
  | y :: l' => if lt x y then x :: l else y :: insert x l'
  end.

Definition sort_forward (l : list A) : list A :=
  fold_left (fun placed x => insert x placed) l [].

Definition sort (reverse : bool) (l : list A) : list A :=
  if reverse then rev (sort_forward (rev l)) else sort_forward l.
End Sort.

(** [float(n)] for an [int] [n], rounded to nearest-even as
    [PyLong_AsDouble] does; this is what [x * n] applies to [n] when [x]
    is a [float].  Where the rounded value leaves the binary64 range (from
    about [2^1024] on) this function yields an infinity and CPython raises
    [OverflowError]; a cart quantity grows by one per request and never
    gets there. *)
Definition float_of_int (n : Z) : float :=
  SF2Prim (binary_normalize prec emax n 0 false).

(** [sum(xs)] over floats: the terms are added from left to right,
    starting from zero.  (The sum of no terms is the integer [0] in Python,
    which is not told apart from [0.0] here.  CPython 3.12 and later carry
    a compensation term along, which only changes how an inexact total is
    rounded.) *)
Definition sum (xs : list float) : float :=
  fold_left PrimFloat.add xs 0%float.

End Py.

(** ** Results of a request *)

(** [ValidationError]: FastAPI rejected a parameter against its [Query]
    constraints before the handler ran.  [NotFound]: the handler raised
    [HTTPException(status_code=404)]. *)
Inductive error : Type :=
| ValidationError
| NotFound.

Inductive result (A : Type) : Type :=
| Ok (a : A)
| Err (e : error).
Arguments Ok {A} a.
Arguments Err {A} e.

(** ** Data model (main.py, lines 38-57) *)

Module Template.
Record t : Type := mk {
  id : Z;
  title : string;
  description : string;
  price : float;
  category : string;
  author : string;
  image_url : string;
  downloads : Z;
  rating : float;
  created_at : string;
  tags : list string
}.
End Template.

Module CartItem.
Record t : Type := mk {
  id : Z;
  template_id : Z;
  template : Template.t;
  quantity : Z;
  added_at : string
}.

(** [item["quantity"] = q] *)
Definition set_quantity (q : Z) (item : t) : t :=
  mk (id item) (template_id item) (template item) q (added_at item).
End CartItem.

(** ** The seed catalog (main.py, lines 72-151) *)

Definition templates_db : list Template.t := [
  Template.mk 1 "ModernShop Pro"
    "A fully responsive e-commerce template built with the latest technologies. Features include product filtering, shopping cart, payment integration, and a beautiful admin dashboard. Perfect for launching your online store quickly and professionally."
    89.0%float "E-commerce" "TechStudio"
    "https://images.unsplash.com/photo-1555066931-4365d14bab8c?w=400"
    1250 4.8%float "2024-01-15T10:00:00Z"
    ["responsive"; "ecommerce"; "modern"; "dashboard"];
  Template.mk 2 "Creative Portfolio"
    "Stunning portfolio template for creatives, designers, and artists. Showcases your work with beautiful galleries, smooth animations, and mobile-first design."
    69.0%float "Portfolio" "DesignLab"
    "https://images.unsplash.com/photo-1517180102446-f3ece451e9d8?w=400"
    890 4.9%float "2024-01-10T14:30:00Z"
    ["portfolio"; "creative"; "gallery"; "animation"];
  Template.mk 3 "Business Suite"
    "Complete business website solution with multiple page layouts, contact forms, team sections, and service pages. Perfect for consulting, agencies, and corporate websites."
    129.0%float "Business" "ProDevs"
    "https://images.unsplash.com/photo-1504868584819-f8e8b4b6d7e3?w=400"
    567 4.7%float "2024-01-05T09:15:00Z"
    ["business"; "corporate"; "professional"; "multi-page"];
  Template.mk 4 "Tech Startup Kit"
    "Modern startup landing page with hero sections, feature highlights, pricing tables, and testimonials. Built for SaaS companies and tech startups."
    149.0%float "Landing Page" "CodeCraft"
    "https://images.unsplash.com/photo-1519389950473-47ba0277781c?w=400"
    723 4.6%float "2024-01-08T16:45:00Z"
    ["startup"; "saas"; "landing"; "modern"];
  Template.mk 5 "Restaurant Pro"
    "Elegant restaurant website with menu displays, reservation system, gallery, and contact information. Perfect for restaurants, cafes, and food businesses."
    79.0%float "Restaurant" "WebMasters"
    "https://images.unsplash.com/photo-1498050108023-c5249f4df085?w=400"
    445 4.5%float "2024-01-12T11:20:00Z"
    ["restaurant"; "food"; "menu"; "elegant"];
  Template.mk 6 "Blog Master"
    "Clean and minimal blog template with article layouts, author pages, categories, and search functionality. Perfect for personal blogs and content creators."
    49.0%float "Blog" "ContentPro"
    "https://images.unsplash.com/photo-1499750310107-5fef28a66643?w=400"
    892 4.4%float "2024-01-18T13:10:00Z"
    ["blog"; "minimal"; "content"; "clean"]
].

(** ** Query engine *)

(** The values the [regex] of [sort_by] and of [order] let through. *)
Inductive sort_field : Type := Downloads | Rating | Price | CreatedAt.
Inductive sort_order : Type := Asc | Desc.

(** [key(a) < key(b)] for [key = lambda x: x[sort_by]]: integers for
    [downloads], floats for [rating] and [price], strings (compared
    character by character) for [created_at]. *)
Definition key_lt (sort_by : sort_field) (a b : Template.t) : bool :=
  match sort_by with
  | Downloads => Template.downloads a <? Template.downloads b
  | Rating => (Template.rating a <? Template.rating b)%float
  | Price => (Template.price a <? Template.price b)%float
  | CreatedAt => String.ltb (Template.created_at a) (Template.created_at b)
  end.

(** [t["category"].lower() == category.lower()] *)
Definition category_is (category : string) (t : Template.t) : bool :=
  String.eqb (Py.lower (Template.category t)) (Py.lower category).

Module ListResponse.
Record t : Type := mk {
  templates : list Template.t;
  total : Z;
  limit : Z;
  offset : Z;
  has_more : bool
}.
End ListResponse.

(** [GET /api/templates] (main.py, lines 185-217).  [limit] carries
    [ge=1, le=100] and [offset] carries [ge=0]. *)
Definition get_templates (db : list Template.t)
    (category : option string) (limit offset : Z)
    (sort_by : sort_field) (order : sort_order) : result ListResponse.t :=
  if negb ((1 <=? limit) && (limit <=? 100) && (0 <=? offset)) then
    Err ValidationError
  else
    let filtered_templates := db in
    let filtered_templates :=
      match category with
      | Some c =>
          if Py.truthy category
          then filter (category_is c) filtered_templates
          else filtered_templates
      | None => filtered_templates
      end in
    let reverse := match order with Desc => true | Asc => false end in
    let filtered_templates :=
      Py.sort (key_lt sort_by) reverse filtered_templates in
    let total := Py.len filtered_templates in
    let paginated_templates :=
      Py.slice filtered_templates offset (offset + limit) in
    Ok (ListResponse.mk paginated_templates total limit offset
          (offset + limit <? total)).

Module CategoryResponse.
Record t : Type := mk {
  category : string;
  templates : list Template.t;
  total : Z
}.
End CategoryResponse.

(** [GET /api/templates/category/{category}] (main.py, lines 229-237);
    [limit] is a plain [int] with no constraint. *)
Definition get_templates_by_category (db : list Template.t)
    (category : string) (limit : Z) : CategoryResponse.t :=
  let filtered_templates := filter (category_is category) db in
  CategoryResponse.mk category (Py.slice_to filtered_templates limit)
    (Py.len filtered_templates).

Module SearchResponse.
Record t : Type := mk {
  query : string;
  category : option string;
  results : list Template.t;
  total : Z
}.
End SearchResponse.

(** [v >= 0] and [v <= 5] as pydantic checks [ge] and [le] on an optional
    float parameter; an absent parameter passes. *)
Definition check_ge (bound : float) (v : option float) : bool :=
  match v with
  | None => true
  | Some x => (bound <=? x)%float
  end.

Definition check_le (bound : float) (v : option float) : bool :=
  match v with
  | None => true
  | Some x => (x <=? bound)%float
  end.

(** The test of main.py, lines 261-263: the lower-cased query occurs in the
    title, in the description or in one of the tags. *)
Definition text_match (query_lower : string) (template : Template.t) : bool :=
  Py.contains query_lower (Py.lower (Template.title template)) ||
  Py.contains query_lower (Py.lower (Template.description template)) ||
  existsb (fun tag => Py.contains query_lower (Py.lower tag))
    (Template.tags template).

(** One turn of the [for template in templates_db] loop of main.py, lines
    259-275: [results] is the list built so far; each [continue] leaves it
    as it is. *)
Definition search_step (query_lower : string) (category : option string)
    (min_price max_price min_rating : option float)
    (results : list Template.t) (template : Template.t) : list Template.t :=
  if text_match query_lower template then
    if Py.truthy category &&
       negb (String.eqb (Py.lower (Template.category template))
               (Py.lower (match category with Some c => c | None => "" end)))
    then results
    else if match min_price with
            | Some p => (Template.price template <? p)%float
            | None => false
            end
    then results
    else if match max_price with
            | Some p => (p <? Template.price template)%float
            | None => false
            end
    then results
    else if match min_rating with
            | Some r => (Template.rating template <? r)%float
            | None => false
            end
    then results
    else results ++ [template]
  else results.

(** [GET /api/search] (main.py, lines 247-282).  [q] carries
    [min_length=1], [min_price] and [max_price] carry [ge=0], [min_rating]
    carries [ge=0, le=5]. *)
Definition search_templates (db : list Template.t) (q : string)
    (category : option string)
    (min_price max_price min_rating : option float)
    : result SearchResponse.t :=
  if negb (Nat.leb 1 (String.length q) &&
           check_ge 0 min_price && check_ge 0 max_price &&
           check_ge 0 min_rating && check_le 5 min_rating) then
    Err ValidationError
  else
    let query_lower := Py.lower q in
    let results :=
      fold_left
        (search_step query_lower category min_price max_price min_rating)
        db [] in
    Ok (SearchResponse.mk q category results (Py.len results)).

(** ** Cart store *)

(** The state of [cart_db]: the cart items in list order. *)
Definition cart : Type := list CartItem.t.

Module CartResponse.
Record t : Type := mk {
  items : list CartItem.t;
  total_items : Z;
  total_price : float
}.
End CartResponse.

(** [GET /api/cart] (main.py, lines 286-294) *)
Definition get_cart (cart_db : cart) : CartResponse.t :=
  let total_price :=
    Py.sum
      (map (fun item =>
              (Template.price (CartItem.template item) *
               Py.float_of_int (CartItem.quantity item))%float)
         cart_db) in
  CartResponse.mk cart_db (Py.len cart_db) total_price.

(** A handler's answer: [message] and, where the handler returns one, the
    cart item. *)
Module CartMessage.
Record t : Type := mk {
  message : string;
  item : option CartItem.t
}.
End CartMessage.

(** [POST /api/cart/add] (main.py, lines 297-319).  [now] is the text that
    [datetime.now().isoformat()] yields during the call. *)
Definition add_to_cart (db : list Template.t) (now : string)
    (template_id : Z) (cart_db : cart) : cart * result CartMessage.t :=
  match Py.next (fun t => Template.id t =? template_id) db with
  | None => (cart_db, Err NotFound)
  | Some template =>
      let already := fun item => CartItem.template_id item =? template_id in
      match Py.next already cart_db with
      | Some existing_item =>
          let existing_item :=
            CartItem.set_quantity (CartItem.quantity existing_item + 1)
              existing_item in
          (Py.modify_first already (fun _ => existing_item) cart_db,
           Ok (CartMessage.mk "Quantity updated" (Some existing_item)))
      | None =>
          let cart_item :=
            CartItem.mk (Py.len cart_db + 1) template_id template 1 now in
          (cart_db ++ [cart_item],
           Ok (CartMessage.mk "Template added to cart" (Some cart_item)))
      end
  end.

(** [PUT /api/cart/{item_id}] (main.py, lines 322-330); [quantity] carries
    [ge=1, le=10]. *)
Definition update_cart_item (item_id quantity : Z) (cart_db : cart)
    : cart * result CartMessage.t :=
  if negb ((1 <=? quantity) && (quantity <=? 10)) then
    (cart_db, Err ValidationError)
  else
    let wanted := fun item => CartItem.id item =? item_id in
    match Py.next wanted cart_db with
    | None => (cart_db, Err NotFound)
    | Some item =>
        let item := CartItem.set_quantity quantity item in
        (Py.modify_first wanted (fun _ => item) cart_db,
         Ok (CartMessage.mk "Cart item updated" (Some item)))
    end.

(** [DELETE /api/cart/{item_id}] (main.py, lines 333-343).  The global is
    rebound to the filtered list before the lengths are compared, so the
    filtered list is the new state on both paths. *)
Definition remove_from_cart (item_id : Z) (cart_db : cart)
    : cart * result CartMessage.t :=
  let original_length := Py.len cart_db in
  let cart_db :=
    filter (fun item => negb (CartItem.id item =? item_id)) cart_db in
  if Py.len cart_db =? original_length then
    (cart_db, Err NotFound)
  else
    (cart_db, Ok (CartMessage.mk "Item removed from cart" None)).

(** [clear_cart] (main.py, lines 346-351), as a call of the function.  Its
    route, [DELETE /api/cart/clear], is declared after
    [DELETE /api/cart/{item_id}], whose pattern the path
    [/api/cart/clear] fits as well. *)
Definition clear_cart (cart_db : cart) : cart * result CartMessage.t :=
  ([], Ok (CartMessage.mk "Cart cleared" None)).

(** A call of one of the four handlers that write the cart. *)
Inductive cart_op : Type :=
| Add (template_id : Z) (now : string)
| Update (item_id quantity : Z)
| Remove (item_id : Z)
| Clear.

Definition step (db : list Template.t) (cart_db : cart) (op : cart_op)
    : cart * result CartMessage.t :=
  match op with
  | Add template_id now => add_to_cart db now template_id cart_db
  | Update item_id quantity => update_cart_item item_id quantity cart_db
  | Remove item_id => remove_from_cart item_id cart_db
  | Clear => clear_cart cart_db
  end.

(** The cart after the requests [ops], served one after the other. *)
Definition run (db : list Template.t) (ops : list cart_op) (cart_db : cart)
    : cart :=
  fold_left (fun c op => fst (step db c op)) ops cart_db.


(** ** Get by ID *)

(** [GET /api/templates/{template_id}] (main.py, lines 220-226) *)
Definition get_template (db : list Template.t) (template_id : Z)
    : result Template.t :=
  match Py.next (fun t => Template.id t =? template_id) db with
  | None => Err NotFound
  | Some template => Ok template
  end.
(** * Vocabulary of the specification *)

(** The catalog after the category filter of main.py, lines 197-198, and
    before sorting and pagination. *)
Definition category_filtered (db : list Template.t)
    (category : option string) : list Template.t :=
  match category with
  | Some c => if Py.truthy category then filter (category_is c) db else db
  | None => db
  end.

(** The category test of the List and Search operations on one template:
    an absent or empty [category] lets every template through. *)
Definition in_category (category : option string) (t : Template.t) : bool :=
  match category with
  | Some c => if Py.truthy category then category_is c t else true
  | None => true
  end.

(** The list that [get_templates] slices its page from. *)
Definition sorted_templates (db : list Template.t) (category : option string)
    (sort_by : sort_field) (order : sort_order) : list Template.t :=
  Py.sort (key_lt sort_by)
    (match order with Desc => true | Asc => false end)
    (category_filtered db category).


(** ** Order of binary64 values *)

Module FloatOrder.

(** A float that is not a NaN. *)
Definition defined (x : float) : bool := negb (is_nan x).

(** Sign class, exponent and mantissa of a float, arranged so that the
    numeric order of two floats that are not NaNs is the lexicographic order
    of their ranks. *)
Definition rank (x : spec_float) : Z * Z * Z :=
  match x with
  | S754_zero _ => (0, 0, 0)
  | S754_infinity s => (if s then -2 else 2, 0, 0)
  | S754_nan => (0, 0, 0)
  | S754_finite s m e => if s then (-1, - e, - Zpos m) else (1, e, Zpos m)
  end.

Definition lex_lt (a b : Z * Z * Z) : Prop :=
  let '(a1, a2, a3) := a in
  let '(b1, b2, b3) := b in
  a1 < b1 \/ (a1 = b1 /\ (a2 < b2 \/ (a2 = b2 /\ a3 < b3))).

End FloatOrder.

(** ** Sorted and stable *)

(** [lt] behaves as a strict weak order on the values that satisfy [P]: it
    is asymmetric, and "not above" is transitive. *)
Definition strict_weak_on {A : Type} (lt : A -> A -> bool) (P : A -> Prop)
    : Prop :=
  (forall a b, P a -> P b -> lt a b = true -> lt b a = false) /\
  (forall a b c, P a -> P b -> P c ->
     lt b a = false -> lt c b = false -> lt c a = false).

(** [a] and [b] tie under [lt]: neither is smaller than the other. *)
Definition tie {A : Type} (lt : A -> A -> bool) (a b : A) : bool :=
  negb (lt a b) && negb (lt b a).

(** The sort key of a template can be ordered: a [rating] or a [price] is
    not a NaN. *)
Definition key_defined (sort_by : sort_field) (t : Template.t) : bool :=
  match sort_by with
  | Rating => FloatOrder.defined (Template.rating t)
  | Price => FloatOrder.defined (Template.price t)
  | Downloads | CreatedAt => true
  end.

(** [key(a) <= key(b)] in the field [sort_by]. *)
Definition key_le (sort_by : sort_field) (a b : Template.t) : bool :=
  match sort_by with
  | Downloads => Template.downloads a <=? Template.downloads b
  | Rating => (Template.rating a <=? Template.rating b)%float
  | Price => (Template.price a <=? Template.price b)%float
  | CreatedAt => String.leb (Template.created_at a) (Template.created_at b)
  end.

(** [a] may stand before [b] in a list sorted by [sort_by] in the direction
    [order]. *)
Definition in_order (sort_by : sort_field) (order : sort_order)
    (a b : Template.t) : Prop :=
  match order with
  | Asc => key_le sort_by a b = true
  | Desc => key_le sort_by b a = true
  end.

(** ** Search *)











(** The templates a search keeps, as one test: the text match and none of
    the four [continue] conditions of main.py, lines 266-273. *)
Definition search_keep (q : string) (category : option string)
    (min_price max_price min_rating : option float) (t : Template.t) : bool :=
  text_match (Py.lower q) t &&
  in_category category t &&
  match min_price with
  | Some p => negb (Template.price t <? p)%float
  | None => true
  end &&
  match max_price with
  | Some p => negb (p <? Template.price t)%float
  | None => true
  end &&
  match min_rating with
  | Some r => negb (Template.rating t <? r)%float
  | None => true
  end.

(** Filter values that pass the [Query] constraints of Search. *)
Definition valid_filters (min_price max_price min_rating : option float)
    : Prop :=
  check_ge 0 min_price = true /\ check_ge 0 max_price = true /\
  check_ge 0 min_rating = true /\ check_le 5 min_rating = true.


(** ** Cart *)

(** The template ids of a cart, in cart order. *)
Definition template_ids (c : cart) : list Z := map CartItem.template_id c.

(** At most one cart item per template id. *)
Definition one_per_template (c : cart) : Prop := NoDup (template_ids c).

(** The sum over the items, in cart order, of price times quantity. *)
Definition price_times_quantity (c : cart) : float :=
  fold_left
    (fun acc item =>
       (acc + Template.price (CartItem.template item) *
              Py.float_of_int (CartItem.quantity item))%float)
    c 0%float.

(** The number of cart items that carry the id [item_id]. *)
Definition count_id (item_id : Z) (c : cart) : Z :=
  Py.len (filter (fun item => CartItem.id item =? item_id) c).

(** A request that adds or removes. *)
Definition add_or_remove (op : cart_op) : bool :=
  match op with
  | Add _ _ | Remove _ => true
  | Update _ _ | Clear => false
  end.

(** ** Further vocabulary *)

(** No two elements of the list tie: of any two, one is smaller. *)
Fixpoint no_ties {A : Type} (lt : A -> A -> bool) (l : list A) : bool :=
  match l with
  | [] => true
  | x :: l' => forallb (fun y => lt x y || lt y x) l' && no_ties lt l'
  end.

(** The four [continue] tests of the search loop, as the test a template
    passes when none of them fires. *)
Definition filters_keep (category : option string)
    (min_price max_price min_rating : option float) (t : Template.t) : bool :=
  in_category category t &&
  match min_price with
  | Some p => negb (Template.price t <? p)%float
  | None => true
  end &&
  match max_price with
  | Some p => negb (p <? Template.price t)%float
  | None => true
  end &&
  match min_rating with
  | Some r => negb (Template.rating t <? r)%float
  | None => true
  end.

(** The sum of the quantities of a cart. *)
Definition total_quantity (c : cart) : Z :=
  fold_right (fun item acc => CartItem.quantity item + acc) 0 c.

(** A request that is not a removal. *)
Definition not_remove (op : cart_op) : bool :=
  match op with
  | Remove _ => false
  | Add _ _ | Update _ _ | Clear => true
  end.

(** The ids [1, 2, ..., n]. *)
Definition ids_from_one (n : nat) : list Z := map Z.of_nat (seq 1 n).
(** * Facts about the Python primitives *)

Module PyFacts.
Import Py.

(** ** Slices *)

Lemma len_nonneg {A} (l : list A) : 0 <= len l.
Proof. unfold len. lia. Qed.

Lemma slice_length {A} (l : list A) (lo hi : Z) :
  len (slice l lo hi) =
  Z.max 0 (Z.min (slice_bound (len l) hi - slice_bound (len l) lo)
             (len l - slice_bound (len l) lo)).
Proof.
  unfold slice, len.
  rewrite length_firstn, length_skipn.
  unfold slice_bound.
  destruct (lo <? 0) eqn:Hlo, (hi <? 0) eqn:Hhi; lia.
Qed.

(** Between bounds that are not negative a slice drops [lo] elements and
    keeps the next [hi - lo]. *)
Lemma slice_nonneg {A} (l : list A) (lo hi : Z) :
  0 <= lo -> 0 <= hi ->
  slice l lo hi = firstn (Z.to_nat (hi - lo)) (skipn (Z.to_nat lo) l).
Proof.
  intros Hlo Hhi. unfold slice, slice_bound.
  destruct (lo <? 0) eqn:E1; [lia|].
  destruct (hi <? 0) eqn:E2; [lia|].
  clear E1 E2.
  destruct (Z_le_gt_dec (len l) lo) as [Hge|Hlt].
  - rewrite !skipn_all2 by (unfold len in *; lia).
    now rewrite !firstn_nil.
  - replace (Z.min lo (len l)) with lo by lia.
    destruct (Z_le_gt_dec hi (len l)) as [Hh|Hh].
    + now replace (Z.min hi (len l)) with hi by lia.
    + replace (Z.min hi (len l)) with (len l) by lia.
      rewrite !firstn_all2; [reflexivity| |];
        rewrite length_skipn; unfold len in *; lia.
Qed.

(** ** What the sort keeps *)

Section SortShape.
Context {A : Type} (lt : A -> A -> bool).

Lemma insert_perm (x : A) (l : list A) :
  Permutation (insert lt x l) (x :: l).
Proof.
  induction l as [|y l IH]; simpl; [reflexivity|].
  destruct (lt x y); [reflexivity|].
  rewrite IH. apply perm_swap.
Qed.

Lemma fold_insert_perm (l placed : list A) :
  Permutation (fold_left (fun p x => insert lt x p) l placed)
              (placed ++ l).
Proof.
  revert placed.
  induction l as [|x l IH]; intros placed; simpl.
  - now rewrite app_nil_r.
  - rewrite IH, insert_perm. apply Permutation_middle.
Qed.

Lemma sort_forward_perm (l : list A) :
  Permutation (sort_forward lt l) l.
Proof. unfold sort_forward. now rewrite fold_insert_perm. Qed.

Lemma sort_perm (reverse : bool) (l : list A) :
  Permutation (sort lt reverse l) l.
Proof.
  unfold sort. destruct reverse.
  - now rewrite <- Permutation_rev, sort_forward_perm, <- Permutation_rev.
  - apply sort_forward_perm.
Qed.

Lemma sort_length (reverse : bool) (l : list A) :
  len (sort lt reverse l) = len l.
Proof.
  unfold len. now rewrite (Permutation_length (sort_perm reverse l)).
Qed.
End SortShape.

End PyFacts.


(** * Order of the sort keys *)

Module FloatOrderFacts.
Import FloatOrder.

Lemma SFcompare_rank (x y : spec_float) :
  x <> S754_nan -> y <> S754_nan ->
  exists c, SFcompare x y = Some c /\
            (c = Lt <-> lex_lt (rank x) (rank y)) /\
            (c = Gt <-> lex_lt (rank y) (rank x)).
Proof.
  intros Hx Hy.
  destruct x as [sx|sx| |sx mx ex], y as [sy|sy| |sy my ey];
    try congruence; cbn [SFcompare rank];
    try (destruct sx); try (destruct sy);
    try change (Pos.compare_cont Eq mx my) with (Pos.compare mx my);
    try destruct (Z.compare_spec ex ey);
    try destruct (Pos.compare_spec mx my);
    (eexists; split; [reflexivity|]); cbn; split; split; intros HH;
    solve [discriminate HH | reflexivity | lia].
Qed.

Lemma defined_not_nan (x : float) :
  defined x = true -> Prim2SF x <> S754_nan.
Proof.
  unfold defined, is_nan. rewrite negb_involutive, eqb_spec.
  intros H E. rewrite E in H. discriminate.
Qed.

Lemma ltb_rank (x y : float) :
  defined x = true -> defined y = true ->
  ((x <? y)%float = true <-> lex_lt (rank (Prim2SF x)) (rank (Prim2SF y))).
Proof.
  intros Hx Hy. rewrite ltb_spec. unfold SFltb.
  destruct (SFcompare_rank _ _ (defined_not_nan _ Hx) (defined_not_nan _ Hy))
    as (c & -> & HLt & _).
  rewrite <- HLt. destruct c; split; congruence.
Qed.

Lemma leb_rank (x y : float) :
  defined x = true -> defined y = true ->
  ((x <=? y)%float = true <->
   ~ lex_lt (rank (Prim2SF y)) (rank (Prim2SF x))).
Proof.
  intros Hx Hy. rewrite leb_spec. unfold SFleb.
  destruct (SFcompare_rank _ _ (defined_not_nan _ Hx) (defined_not_nan _ Hy))
    as (c & -> & _ & HGt).
  rewrite <- HGt. destruct c; split; congruence.
Qed.

Lemma lex_lt_asym a b : lex_lt a b -> ~ lex_lt b a.
Proof. destruct a as [[? ?] ?], b as [[? ?] ?]. cbn. lia. Qed.

Lemma lex_ge_trans a b c : ~ lex_lt b a -> ~ lex_lt c b -> ~ lex_lt c a.
Proof.
  destruct a as [[? ?] ?], b as [[? ?] ?], c as [[? ?] ?]. cbn. lia.
Qed.

(** A float that passed a [ge] or [le] check is not a NaN. *)
Lemma leb_defined_r (x y : float) :
  (x <=? y)%float = true -> defined y = true.
Proof.
  rewrite leb_spec. unfold defined, is_nan.
  rewrite negb_involutive, eqb_spec. unfold SFleb, SFeqb.
  destruct (Prim2SF x) as [sx|sx| |sx mx ex],
           (Prim2SF y) as [sy|sy| |sy my ey];
    cbn; try discriminate; try reflexivity; intros _;
    destruct sy; try reflexivity;
    rewrite ?Z.compare_refl, ?Pos.compare_cont_refl; reflexivity.
Qed.

(** Not below is at least. *)
Lemma float_ltb_false_leb (x y : float) :
  defined x = true -> defined y = true ->
  ((x <? y)%float = false <-> (y <=? x)%float = true).
Proof.
  intros Hx Hy. rewrite (leb_rank y x Hy Hx), <- (ltb_rank x y Hx Hy).
  destruct (x <? y)%float; split; congruence.
Qed.

Lemma float_ltb_strict_weak :
  strict_weak_on PrimFloat.ltb (fun x => defined x = true).
Proof.
  split.
  - intros a b Ha Hb Hab.
    apply (ltb_rank a b Ha Hb), lex_lt_asym in Hab.
    rewrite <- (ltb_rank b a Hb Ha) in Hab.
    now destruct (b <? a)%float.
  - intros a b c Ha Hb Hc Hba Hcb.
    apply not_true_iff_false. apply not_true_iff_false in Hba, Hcb.
    rewrite (ltb_rank _ _ Hb Ha) in Hba.
    rewrite (ltb_rank _ _ Hc Hb) in Hcb.
    rewrite (ltb_rank _ _ Hc Ha).
    eapply lex_ge_trans; eauto.
Qed.

End FloatOrderFacts.

Module StringOrderFacts.

Lemma compare_not_Lt_trans (a b c : string) :
  String.compare a b <> Lt -> String.compare b c <> Lt ->
  String.compare a c <> Lt.
Proof.
  revert b c.
  induction a as [|x a IH]; intros [|y b] [|z c]; cbn; try congruence.
  unfold Ascii.compare.
  destruct (N.compare_spec (N_of_ascii x) (N_of_ascii y));
    destruct (N.compare_spec (N_of_ascii y) (N_of_ascii z));
    destruct (N.compare_spec (N_of_ascii x) (N_of_ascii z));
    try lia; try congruence; eauto.
Qed.

Lemma string_ltb_false_leb (a b : string) :
  String.ltb a b = false <-> String.leb b a = true.
Proof.
  unfold String.ltb, String.leb. rewrite (String.compare_antisym a b).
  destruct (String.compare b a); cbn; split; congruence.
Qed.

Lemma string_ltb_strict_weak : strict_weak_on String.ltb (fun _ => True).
Proof.
  unfold String.ltb. split.
  - intros a b _ _. rewrite (String.compare_antisym a b).
    destruct (String.compare b a); cbn; congruence.
  - intros a b c _ _ _ Hba Hcb.
    pose proof (compare_not_Lt_trans c b a) as H.
    destruct (String.compare b a), (String.compare c b),
             (String.compare c a); try congruence;
      exfalso; apply H; congruence.
Qed.

End StringOrderFacts.

(** * The sort orders its input and keeps ties in place *)

Module SortFacts.
Import Py.

Lemma filter_none {A} (f : A -> bool) (l : list A) :
  (forall z, In z l -> f z = false) -> filter f l = [].
Proof.
  induction l as [|z l IH]; intros H; cbn; [reflexivity|].
  rewrite (H z (or_introl eq_refl)). apply IH.
  intros w Hw. apply H. now right.
Qed.

Lemma In_firstn {A} (n : nat) (l : list A) (y : A) :
  In y (firstn n l) -> In y l.
Proof.
  revert l. induction n as [|n IH]; intros [|x l]; cbn; try tauto.
  intros [->|H]; [now left|right; now apply IH].
Qed.

Section Ordered.
Context {A : Type} (lt : A -> A -> bool) (P : A -> Prop).
Hypothesis Hswo : strict_weak_on lt P.

(** [a] is not above [b]. *)
Let le (a b : A) : Prop := lt b a = false.

Lemma insert_Forall (Q : A -> Prop) (x : A) (l : list A) :
  Q x -> Forall Q l -> Forall Q (insert lt x l).
Proof.
  intros Hx Hl.
  apply (Permutation_Forall (Permutation_sym (PyFacts.insert_perm lt x l))).
  now constructor.
Qed.

Lemma insert_sorted (x : A) (l : list A) :
  P x -> Forall P l ->
  StronglySorted le l -> StronglySorted le (insert lt x l).
Proof.
  destruct Hswo as [Hasym Htrans].
  intros Px Pl Hs.
  induction Hs as [|y l Hs IH Hy]; cbn.
  - repeat constructor.
  - inversion Pl as [|? ? Py Pl']; subst.
    destruct (lt x y) eqn:Hxy.
    + constructor; [now constructor|].
      assert (Hyx : le x y) by (apply Hasym; auto).
      constructor; [exact Hyx|].
      rewrite Forall_forall in Hy, Pl' |- *.
      intros z Hz. unfold le in *.
      apply (Htrans x y z); auto.
    + constructor; [now apply IH|].
      apply insert_Forall; auto.
  Qed.

Lemma fold_insert_sorted (l placed : list A) :
  Forall P l -> Forall P placed -> StronglySorted le placed ->
  StronglySorted le (fold_left (fun p x => insert lt x p) l placed).
Proof.
  revert placed.
  induction l as [|x l IH]; intros placed Pl Pp Hs; cbn; [exact Hs|].
  inversion Pl; subst.
  apply IH; auto using insert_Forall, insert_sorted.
Qed.

Lemma sort_forward_sorted (l : list A) :
  Forall P l -> StronglySorted le (sort_forward lt l).
Proof.
  intros Pl. apply fold_insert_sorted; auto; constructor.
Qed.

(** A tie of [a] cannot stand behind an element that is above [a]'s
    tie [x]. *)
Lemma insert_ties (a x : A) (l : list A) :
  P a -> P x -> Forall P l -> StronglySorted le l ->
  filter (tie lt a) (insert lt x l) =
  filter (tie lt a) l ++ (if tie lt a x then [x] else []).
Proof.
  destruct Hswo as [Hasym Htrans].
  intros Pa Px Pl Hs.
  induction Hs as [|y l Hs IH Hy]; cbn.
  - reflexivity.
  - inversion Pl as [|? ? Py Pl']; subst.
    destruct (lt x y) eqn:Hxy; cbn.
    + destruct (tie lt a x) eqn:Hax; [|now rewrite app_nil_r].
      assert (Hnone : forall z, P z -> lt x z = true -> tie lt a z = false).
      { intros z Pz Hxz. unfold tie in *.
        apply andb_true_iff in Hax as [H1 H2].
        apply negb_true_iff in H1, H2.
        destruct (lt a z) eqn:Haz; [reflexivity|].
        rewrite (Htrans z a x Pz Pa Px Haz H2) in Hxz. discriminate. }
      assert (Hall : forall z, In z (y :: l) -> P z /\ lt x z = true).
      { intros z [<-|Hz]; [auto|].
        rewrite Forall_forall in Hy, Pl'.
        split; [auto|].
        destruct (lt x z) eqn:Hxz; [reflexivity|].
        rewrite (Htrans y z x Py (Pl' z Hz) Px (Hy z Hz) Hxz) in Hxy.
        discriminate. }
      assert (Hnil : filter (tie lt a) (y :: l) = []).
      { apply filter_none. intros z Hz.
        destruct (Hall z Hz) as [Pz Hxz]. now apply Hnone. }
      cbn in Hnil. rewrite Hnil. reflexivity.
    + destruct (tie lt a y); cbn; now rewrite IH.
Qed.

Lemma fold_insert_ties (a : A) (l placed : list A) :
  P a -> Forall P l -> Forall P placed -> StronglySorted le placed ->
  filter (tie lt a) (fold_left (fun p x => insert lt x p) l placed) =
  filter (tie lt a) placed ++ filter (tie lt a) l.
Proof.
  intros Pa. revert placed.
  induction l as [|x l IH]; intros placed Pl Pp Hs; cbn.
  - now rewrite app_nil_r.
  - inversion Pl; subst.
    rewrite IH by auto using insert_Forall, insert_sorted.
    rewrite insert_ties by auto.
    rewrite <- app_assoc. now destruct (tie lt a x).
Qed.

Lemma sort_forward_ties (a : A) (l : list A) :
  P a -> Forall P l ->
  filter (tie lt a) (sort_forward lt l) = filter (tie lt a) l.
Proof.
  intros Pa Pl. unfold sort_forward.
  rewrite fold_insert_ties; auto; constructor.
Qed.

(** Ties keep their input order in both directions of the sort. *)
Lemma sort_ties (reverse : bool) (a : A) (l : list A) :
  P a -> Forall P l ->
  filter (tie lt a) (sort lt reverse l) = filter (tie lt a) l.
Proof.
  intros Pa Pl. unfold sort. destruct reverse.
  - rewrite filter_rev, sort_forward_ties, filter_rev, rev_involutive;
      auto using Forall_rev.
  - now apply sort_forward_ties.
Qed.

Lemma tie_refl (a : A) : P a -> tie lt a a = true.
Proof.
  destruct Hswo as [Hasym _]. intros Pa. unfold tie.
  destruct (lt a a) eqn:E; [|reflexivity].
  rewrite (Hasym a a Pa Pa E) in E. discriminate.
Qed.

(** Sortedness and stability leave no choice: two sorted lists that hold
    the same ties in the same order are equal.  So every stable sort that
    compares with [lt], CPython's own included, returns what
    [sort_forward] returns. *)
Lemma sorted_stable_unique (l1 l2 : list A) :
  Forall P l1 -> Forall P l2 ->
  StronglySorted le l1 -> StronglySorted le l2 ->
  (forall a, P a -> filter (tie lt a) l1 = filter (tie lt a) l2) ->
  l1 = l2.
Proof.
  revert l2.
  induction l1 as [|x l1 IH]; intros [|y l2] P1 P2 S1 S2 Hst;
    [reflexivity| | |].
  - inversion P2 as [|? ? Py _]; subst.
    specialize (Hst y Py). cbn in Hst. rewrite (tie_refl y Py) in Hst.
    discriminate.
  - inversion P1 as [|? ? Px _]; subst.
    specialize (Hst x Px). cbn in Hst. rewrite (tie_refl x Px) in Hst.
    discriminate.
  - inversion P1 as [|? ? Px P1']; inversion P2 as [|? ? Py P2']; subst.
    inversion S1 as [|? ? S1' Hx]; inversion S2 as [|? ? S2' Hy]; subst.
    assert (Hxy : x = y).
    { pose proof (Hst x Px) as Ex. pose proof (Hst y Py) as Ey.
      cbn in Ex, Ey.
      rewrite (tie_refl x Px) in Ex. rewrite (tie_refl y Py) in Ey.
      destruct (tie lt x y) eqn:Txy; [now injection Ex|].
      assert (Tyx : tie lt y x = false)
        by (unfold tie in *; now rewrite andb_comm).
      rewrite Tyx in Ey.
      assert (Hx2 : In x l2).
      { eapply proj1. apply (filter_In (tie lt x)).
        rewrite <- Ex. now left. }
      assert (Hy1 : In y l1).
      { eapply proj1. apply (filter_In (tie lt y)).
        rewrite Ey. now left. }
      rewrite Forall_forall in Hx, Hy.
      specialize (Hx y Hy1). specialize (Hy x Hx2). unfold le in Hx, Hy.
      unfold tie in Txy. rewrite Hx, Hy in Txy. discriminate. }
    subst y. f_equal. apply IH; auto.
    intros a Pa. specialize (Hst a Pa). cbn in Hst.
    destruct (tie lt a x); [now injection Hst|exact Hst].
Qed.

Lemma sort_forward_unique (l sorted : list A) :
  Forall P l -> Forall P sorted ->
  StronglySorted le sorted ->
  (forall a, P a -> filter (tie lt a) sorted = filter (tie lt a) l) ->
  sorted = sort_forward lt l.
Proof.
  intros Pl Ps Hs Hst.
  apply sorted_stable_unique; auto.
  - apply (Permutation_Forall
             (Permutation_sym (PyFacts.sort_forward_perm lt l)) Pl).
  - now apply sort_forward_sorted.
  - intros a Pa. rewrite Hst by exact Pa.
    symmetry. now apply sort_forward_ties.
Qed.

Lemma StronglySorted_rev (R : A -> A -> Prop) (l : list A) :
  StronglySorted R l -> StronglySorted (fun a b => R b a) (rev l).
Proof.
  induction 1 as [|x l Hs IH Hx]; cbn; [constructor|].
  clear Hs. apply Forall_rev in Hx.
  induction IH as [|y l' Hs' IH' Hy]; cbn.
  - repeat constructor.
  - inversion Hx; subst. constructor; [auto|].
    apply Forall_app. split; [exact Hy|]. now repeat constructor.
Qed.

(** A forward sort is non-decreasing, a reverse sort non-increasing. *)
Lemma sort_sorted (reverse : bool) (l : list A) :
  Forall P l ->
  StronglySorted (fun a b => if reverse then le b a else le a b)
    (sort lt reverse l).
Proof.
  intros Pl. unfold sort. destruct reverse.
  - apply StronglySorted_rev, sort_forward_sorted. now apply Forall_rev.
  - now apply sort_forward_sorted.
Qed.

End Ordered.

Lemma StronglySorted_skipn {A} (R : A -> A -> Prop) (n : nat) (l : list A) :
  StronglySorted R l -> StronglySorted R (skipn n l).
Proof.
  revert l. induction n as [|n IH]; intros l Hs; [exact Hs|].
  destruct l as [|x l]; [constructor|]. cbn.
  inversion Hs; subst. now apply IH.
Qed.

Lemma StronglySorted_firstn {A} (R : A -> A -> Prop) (n : nat) (l : list A) :
  StronglySorted R l -> StronglySorted R (firstn n l).
Proof.
  revert l. induction n as [|n IH]; intros l Hs; [constructor|].
  destruct l as [|x l]; [constructor|]. cbn.
  inversion Hs as [|? ? Hs' Hx]; subst. constructor; [now apply IH|].
  rewrite Forall_forall in Hx |- *.
  intros y Hy. apply Hx. now apply In_firstn in Hy.
Qed.

Lemma StronglySorted_slice {A} (R : A -> A -> Prop) (l : list A) (lo hi : Z) :
  StronglySorted R l -> StronglySorted R (slice l lo hi).
Proof.
  intros Hs. unfold slice.
  now apply StronglySorted_firstn, StronglySorted_skipn.
Qed.

End SortFacts.

(** * Strings: lower-casing and substring search *)

Module StringFacts.
Import Py.
#[local] Open Scope string_scope.








End StringFacts.

(** * Lists: first match, update in place, filter *)

Module ListFacts.
Import Py.

Lemma filter_all {A} (f : A -> bool) (l : list A) :
  (forall x, In x l -> f x = true) -> filter f l = l.
Proof.
  induction l as [|x l IH]; intros H; cbn; [reflexivity|].
  rewrite (H x (or_introl eq_refl)). f_equal. apply IH.
  intros y Hy. apply H. now right.
Qed.

Lemma filter_length_le {A} (f : A -> bool) (l : list A) :
  (List.length (filter f l) <= List.length l)%nat.
Proof.
  induction l as [|x l IH]; cbn; [lia|]. destruct (f x); cbn; lia.
Qed.

(** A filter that drops nothing changes nothing. *)
Lemma filter_same_length {A} (f : A -> bool) (l : list A) :
  List.length (filter f l) = List.length l ->
  forall x, In x l -> f x = true.
Proof.
  induction l as [|y l IH]; cbn; [tauto|].
  pose proof (filter_length_le f l) as Hle.
  destruct (f y) eqn:Hy; cbn; intros Hlen x [<-|Hx]; auto; try lia.
Qed.

Lemma next_app_skip {A} (p : A -> bool) (pre : list A) (x : A)
    (post : list A) :
  (forall y, In y pre -> p y = false) -> p x = true ->
  next p (pre ++ x :: post) = Some x.
Proof.
  unfold next. induction pre as [|y pre IH]; intros Hpre Hx; cbn.
  - now rewrite Hx.
  - rewrite (Hpre y (or_introl eq_refl)). apply IH; auto.
    intros z Hz. apply Hpre. now right.
Qed.

Lemma next_none {A} (p : A -> bool) (l : list A) :
  next p l = None <-> forall y, In y l -> p y = false.
Proof.
  unfold next. split.
  - intros H y Hy. now apply (find_none p l H).
  - induction l as [|x l IH]; intros H; cbn; [reflexivity|].
    rewrite (H x (or_introl eq_refl)). apply IH.
    intros y Hy. apply H. now right.
Qed.

(** The first match splits the list around itself. *)
Lemma next_some_split {A} (p : A -> bool) (l : list A) (x : A) :
  next p l = Some x ->
  exists pre post,
    l = pre ++ x :: post /\ (forall y, In y pre -> p y = false) /\
    p x = true.
Proof.
  unfold next. induction l as [|y l IH]; cbn; [discriminate|].
  destruct (p y) eqn:Hy.
  - intros [= ->]. exists [], l. cbn. tauto.
  - intros H. destruct (IH H) as (pre & post & -> & Hpre & Hx).
    exists (y :: pre), post. cbn. repeat split; auto.
    intros z [<-|Hz]; auto.
Qed.

Lemma modify_first_app_skip {A} (p : A -> bool) (f : A -> A)
    (pre : list A) (x : A) (post : list A) :
  (forall y, In y pre -> p y = false) -> p x = true ->
  modify_first p f (pre ++ x :: post) = pre ++ f x :: post.
Proof.
  induction pre as [|y pre IH]; intros Hpre Hx; cbn.
  - now rewrite Hx.
  - rewrite (Hpre y (or_introl eq_refl)). f_equal. apply IH; auto.
    intros z Hz. apply Hpre. now right.
Qed.

End ListFacts.
(** * The List operation: page size and [has_more] *)

Lemma get_templates_valid (db : list Template.t) (category : option string)
    (limit offset : Z) (sort_by : sort_field) (order : sort_order) :
  1 <= limit <= 100 -> 0 <= offset ->
  get_templates db category limit offset sort_by order =
  Ok (ListResponse.mk
        (Py.slice (sorted_templates db category sort_by order)
           offset (offset + limit))
        (Py.len (category_filtered db category)) limit offset
        (offset + limit <? Py.len (category_filtered db category))).
Proof.
  intros Hl Ho. unfold get_templates.
  replace ((1 <=? limit) && (limit <=? 100) && (0 <=? offset))%bool
    with true
    by (symmetry; rewrite !andb_true_iff, !Z.leb_le; lia).
  cbn [negb].
  fold (category_filtered db category).
  fold (sorted_templates db category sort_by order).
  unfold sorted_templates at 2 3.
  now rewrite PyFacts.sort_length.
Qed.

(** C1. For every catalog, every category and every valid [limit] (1 to
    100) and [offset] (0 or more), the List operation answers; [total] is
    the size of the category-filtered catalog, the page holds
    [min(limit, max(0, total - offset))] templates, and [has_more] is
    [offset + limit < total]. *)
Theorem list_page_size (db : list Template.t) (category : option string)
    (limit offset : Z) (sort_by : sort_field) (order : sort_order) :
  1 <= limit <= 100 -> 0 <= offset ->
  exists r,
    get_templates db category limit offset sort_by order = Ok r /\
    ListResponse.total r = Py.len (category_filtered db category) /\
    Py.len (ListResponse.templates r) =
      Z.min limit (Z.max 0 (ListResponse.total r - offset)) /\
    ListResponse.has_more r = (offset + limit <? ListResponse.total r).
Proof.
  intros Hl Ho. eexists. split; [now apply get_templates_valid|].
  cbn [ListResponse.total ListResponse.templates ListResponse.has_more].
  repeat split.
  rewrite PyFacts.slice_length.
  unfold sorted_templates. rewrite PyFacts.sort_length.
  pose proof (PyFacts.len_nonneg (category_filtered db category)).
  unfold Py.slice_bound.
  destruct (offset <? 0) eqn:E1; [lia|].
  destruct (offset + limit <? 0) eqn:E2; lia.
Qed.

Lemma list_page_size_witness :
  exists r,
    get_templates templates_db (Some "blog") 2 0 Price Desc = Ok r /\
    ListResponse.total r = Py.len (category_filtered templates_db (Some "blog")) /\
    Py.len (ListResponse.templates r) =
      Z.min 2 (Z.max 0 (ListResponse.total r - 0)) /\
    ListResponse.has_more r = (0 + 2 <? ListResponse.total r).
Proof. apply (list_page_size templates_db (Some "blog") 2 0 Price Desc); lia. Defined.

(** * The List operation: order of the result *)

Lemma category_filtered_filter (db : list Template.t)
    (category : option string) :
  category_filtered db category = filter (in_category category) db.
Proof.
  unfold category_filtered, in_category.
  destruct category as [c|]; [destruct (Py.truthy (Some c))|];
    try reflexivity; induction db; cbn; congruence.
Qed.

Lemma key_lt_strict_weak (sort_by : sort_field) :
  strict_weak_on (key_lt sort_by) (fun t => key_defined sort_by t = true).
Proof.
  destruct sort_by; cbn [key_lt key_defined].
  - split.
    + intros a b _ _ H. apply Z.ltb_lt in H. apply Z.ltb_ge. lia.
    + intros a b c _ _ _ H1 H2. apply Z.ltb_ge in H1, H2.
      apply Z.ltb_ge. lia.
  - destruct FloatOrderFacts.float_ltb_strict_weak as [Ha Ht].
    split; intros; eauto.
  - destruct FloatOrderFacts.float_ltb_strict_weak as [Ha Ht].
    split; intros; eauto.
  - destruct StringOrderFacts.string_ltb_strict_weak as [Ha Ht].
    split; intros; eauto.
Qed.

Lemma key_lt_false_le (sort_by : sort_field) (a b : Template.t) :
  key_defined sort_by a = true -> key_defined sort_by b = true ->
  (key_lt sort_by b a = false <-> key_le sort_by a b = true).
Proof.
  destruct sort_by; cbn [key_lt key_defined key_le]; intros Ha Hb.
  - rewrite Z.ltb_ge, Z.leb_le. tauto.
  - now apply FloatOrderFacts.float_ltb_false_leb.
  - now apply FloatOrderFacts.float_ltb_false_leb.
  - apply StringOrderFacts.string_ltb_false_leb.
Qed.

Lemma StronglySorted_impl_on {A} (P : A -> Prop) (R S : A -> A -> Prop)
    (l : list A) :
  (forall a b, P a -> P b -> R a b -> S a b) ->
  Forall P l -> StronglySorted R l -> StronglySorted S l.
Proof.
  intros HRS Pl Hs.
  induction Hs as [|x l Hs IH Hx]; [constructor|].
  inversion Pl as [|? ? Px Pl']; subst.
  constructor; [auto|].
  rewrite Forall_forall in Hx, Pl' |- *. auto.
Qed.

Lemma sorted_templates_perm db category sort_by order :
  Permutation (sorted_templates db category sort_by order)
              (filter (in_category category) db).
Proof.
  unfold sorted_templates. rewrite <- category_filtered_filter.
  apply PyFacts.sort_perm.
Qed.

Lemma sorted_templates_in_order db category sort_by order :
  Forall (fun t => key_defined sort_by t = true) db ->
  StronglySorted (in_order sort_by order)
    (sorted_templates db category sort_by order).
Proof.
  intros Hdb.
  assert (Hf : Forall (fun t => key_defined sort_by t = true)
                 (category_filtered db category)).
  { rewrite category_filtered_filter.
    rewrite Forall_forall in Hdb |- *.
    intros t Ht. apply filter_In in Ht. now apply Hdb. }
  pose proof (SortFacts.sort_sorted _ _ (key_lt_strict_weak sort_by)
                (match order with Desc => true | Asc => false end)
                _ Hf) as Hs.
  fold (sorted_templates db category sort_by order) in Hs.
  eapply (StronglySorted_impl_on
            (fun t => key_defined sort_by t = true)); [| |exact Hs].
  - intros a b Ha Hb. destruct order; cbn [in_order]; intros H;
      now apply key_lt_false_le.
  - apply (Permutation_Forall
             (Permutation_sym (sorted_templates_perm db category sort_by order))).
    now rewrite <- category_filtered_filter.
Qed.

(** C2, with the order of its example as the code gives it.  For every
    catalog whose ratings and prices are numbers, every sort field and both
    orders, the List result is the requested slice of a rearrangement of
    the category-filtered catalog that is non-decreasing (asc) or
    non-increasing (desc) in the field, so the page is too; templates with
    equal keys keep the order they have in the catalog.  Sorting the six
    seed templates by price ascending gives Blog Master (49), Creative
    Portfolio (69), Restaurant Pro (79), ModernShop Pro (89), Business
    Suite (129), Tech Startup Kit (149). *)
Theorem list_sorted_stable (db : list Template.t) (category : option string)
    (limit offset : Z) (sort_by : sort_field) (order : sort_order) :
  1 <= limit <= 100 -> 0 <= offset ->
  Forall (fun t => key_defined sort_by t = true) db ->
  (exists r,
     get_templates db category limit offset sort_by order = Ok r /\
     ListResponse.templates r =
       Py.slice (sorted_templates db category sort_by order)
         offset (offset + limit) /\
     Permutation (sorted_templates db category sort_by order)
       (filter (in_category category) db) /\
     StronglySorted (in_order sort_by order)
       (sorted_templates db category sort_by order) /\
     StronglySorted (in_order sort_by order) (ListResponse.templates r) /\
     forall a, key_defined sort_by a = true ->
       filter (tie (key_lt sort_by) a)
         (sorted_templates db category sort_by order) =
       filter (tie (key_lt sort_by) a) (filter (in_category category) db)) /\
  (exists r,
     get_templates templates_db None 10 0 Price Asc = Ok r /\
     map (fun t => (Template.title t, Template.price t))
       (ListResponse.templates r) =
     [("Blog Master", 49%float); ("Creative Portfolio", 69%float);
      ("Restaurant Pro", 79%float); ("ModernShop Pro", 89%float);
      ("Business Suite", 129%float); ("Tech Startup Kit", 149%float)]).
Proof.
  intros Hl Ho Hdb. split.
  - eexists. split; [now apply get_templates_valid|].
    cbn [ListResponse.templates].
    pose proof (sorted_templates_in_order db category sort_by order Hdb)
      as Hs.
    repeat split.
    + apply sorted_templates_perm.
    + exact Hs.
    + now apply SortFacts.StronglySorted_slice.
    + intros a Ha. unfold sorted_templates.
      rewrite <- category_filtered_filter.
      apply (SortFacts.sort_ties _ _ (key_lt_strict_weak sort_by)); auto.
      rewrite category_filtered_filter.
      rewrite Forall_forall in Hdb |- *.
      intros t Ht. apply filter_In in Ht. now apply Hdb.
  - eexists. split; [vm_compute; reflexivity|]. vm_compute. reflexivity.
Qed.

Lemma list_sorted_stable_witness :
  (exists r,
     get_templates templates_db (Some "blog") 2 0 Rating Desc = Ok r /\
     ListResponse.templates r =
       Py.slice (sorted_templates templates_db (Some "blog") Rating Desc)
         0 (0 + 2) /\
     Permutation (sorted_templates templates_db (Some "blog") Rating Desc)
       (filter (in_category (Some "blog")) templates_db) /\
     StronglySorted (in_order Rating Desc)
       (sorted_templates templates_db (Some "blog") Rating Desc) /\
     StronglySorted (in_order Rating Desc) (ListResponse.templates r) /\
     forall a, key_defined Rating a = true ->
       filter (tie (key_lt Rating) a)
         (sorted_templates templates_db (Some "blog") Rating Desc) =
       filter (tie (key_lt Rating) a)
         (filter (in_category (Some "blog")) templates_db)) /\
  (exists r,
     get_templates templates_db None 10 0 Price Asc = Ok r /\
     map (fun t => (Template.title t, Template.price t))
       (ListResponse.templates r) =
     [("Blog Master", 49%float); ("Creative Portfolio", 69%float);
      ("Restaurant Pro", 79%float); ("ModernShop Pro", 89%float);
      ("Business Suite", 129%float); ("Tech Startup Kit", 149%float)]).
Proof.
  apply (list_sorted_stable templates_db (Some "blog") 2 0 Rating Desc);
    [lia | lia | repeat constructor].
Defined.

(** The seed templates sorted by price ascending do not start Blog
    Master, Restaurant Pro, Creative Portfolio: Restaurant Pro (79) comes
    after Creative Portfolio (69). *)
Lemma price_asc_seed_order_differs :
  ~ exists r rest,
      get_templates templates_db None 10 0 Price Asc = Ok r /\
      map Template.title (ListResponse.templates r) =
      "Blog Master" :: "Restaurant Pro" :: "Creative Portfolio" :: rest.
Proof.
  intros (r & rest & Hr & Ht).
  vm_compute in Hr. inversion Hr; subst r; clear Hr.
  cbn in Ht. discriminate Ht.
Qed.

(** * Search *)

Lemma search_step_keep q category min_price max_price min_rating results t :
  search_step (Py.lower q) category min_price max_price min_rating results t =
  if search_keep q category min_price max_price min_rating t
  then results ++ [t] else results.
Proof.
  unfold search_step, search_keep, in_category, category_is.
  destruct (text_match (Py.lower q) t); [|reflexivity].
  destruct category as [c|];
    [destruct (Py.truthy (Some c));
     [destruct (String.eqb (Py.lower (Template.category t)) (Py.lower c))|]|];
    cbn [andb negb]; try reflexivity;
    (destruct min_price as [p1|];
       [destruct (Template.price t <? p1)%float|]; cbn [andb negb];
       try reflexivity);
    (destruct max_price as [p2|];
       [destruct (p2 <? Template.price t)%float|]; cbn [andb negb];
       try reflexivity);
    (destruct min_rating as [r|];
       [destruct (Template.rating t <? r)%float|]; reflexivity).
Qed.

Lemma search_loop_filter q category min_price max_price min_rating db acc :
  fold_left (search_step (Py.lower q) category min_price max_price min_rating)
    db acc =
  acc ++ filter (search_keep q category min_price max_price min_rating) db.
Proof.
  revert acc. induction db as [|t db IH]; intros acc; cbn.
  - now rewrite app_nil_r.
  - rewrite IH, search_step_keep.
    destruct (search_keep q category min_price max_price min_rating t);
      [now rewrite <- app_assoc|reflexivity].
Qed.





(** * Cart handlers, one case at a time *)

Lemma add_unknown_template db now template_id cart_db :
  Py.next (fun t => Template.id t =? template_id) db = None ->
  add_to_cart db now template_id cart_db = (cart_db, Err NotFound).
Proof. unfold add_to_cart. now intros ->. Qed.

(** A template that is already in the cart: the first item that carries it
    gets one more, where it stands. *)
Lemma add_existing db now template_id template pre item post :
  Py.next (fun t => Template.id t =? template_id) db = Some template ->
  ~ In template_id (template_ids pre) ->
  CartItem.template_id item = template_id ->
  add_to_cart db now template_id (pre ++ item :: post) =
  (pre ++ CartItem.set_quantity (CartItem.quantity item + 1) item :: post,
   Ok (CartMessage.mk "Quantity updated"
         (Some (CartItem.set_quantity (CartItem.quantity item + 1) item)))).
Proof.
  intros Hdb Hpre Hitem. unfold add_to_cart. rewrite Hdb.
  assert (Hskip : forall y, In y pre ->
            (CartItem.template_id y =? template_id) = false).
  { intros y Hy. apply Z.eqb_neq. intros E. apply Hpre.
    unfold template_ids. rewrite <- E. now apply in_map. }
  assert (Hhit : (CartItem.template_id item =? template_id) = true)
    by now apply Z.eqb_eq.
  rewrite (ListFacts.next_app_skip _ pre item post Hskip Hhit).
  now rewrite (ListFacts.modify_first_app_skip _ _ pre item post Hskip Hhit).
Qed.

(** A template that is not in the cart yet: a new item goes to the end,
    with quantity 1 and the id [len(cart_db) + 1]. *)
Lemma add_new db now template_id template cart_db :
  Py.next (fun t => Template.id t =? template_id) db = Some template ->
  ~ In template_id (template_ids cart_db) ->
  add_to_cart db now template_id cart_db =
  (cart_db ++ [CartItem.mk (Py.len cart_db + 1) template_id template 1 now],
   Ok (CartMessage.mk "Template added to cart"
         (Some (CartItem.mk (Py.len cart_db + 1) template_id template 1
                  now)))).
Proof.
  intros Hdb Hnew. unfold add_to_cart. rewrite Hdb.
  replace (Py.next _ cart_db) with (@None CartItem.t); [reflexivity|].
  symmetry. apply ListFacts.next_none. intros y Hy.
  apply Z.eqb_neq. intros E. apply Hnew.
  unfold template_ids. rewrite <- E. now apply in_map.
Qed.

(** Whether the template id is in the cart decides between the two. *)
Lemma in_template_ids_split template_id (cart_db : cart) :
  In template_id (template_ids cart_db) ->
  exists pre item post,
    cart_db = pre ++ item :: post /\
    ~ In template_id (template_ids pre) /\
    CartItem.template_id item = template_id.
Proof.
  intros Hin.
  destruct (Py.next (fun item => CartItem.template_id item =? template_id)
              cart_db) as [item|] eqn:Hnext.
  - apply ListFacts.next_some_split in Hnext
      as (pre & post & -> & Hpre & Hitem).
    exists pre, item, post. repeat split; [|now apply Z.eqb_eq].
    unfold template_ids. rewrite in_map_iff. intros (y & Hy & Hin').
    specialize (Hpre y Hin'). apply Z.eqb_neq in Hpre. contradiction.
  - exfalso. unfold template_ids in Hin. apply in_map_iff in Hin
      as (y & Hy & Hin).
    rewrite ListFacts.next_none in Hnext. specialize (Hnext y Hin).
    apply Z.eqb_neq in Hnext. contradiction.
Qed.

Lemma template_ids_app (a b : cart) :
  template_ids (a ++ b) = template_ids a ++ template_ids b.
Proof. apply map_app. Qed.

Lemma update_result item_id quantity cart_db :
  (~ 1 <= quantity <= 10 /\
   update_cart_item item_id quantity cart_db = (cart_db, Err ValidationError)) \/
  (1 <= quantity <= 10 /\
   Py.next (fun item => CartItem.id item =? item_id) cart_db = None /\
   update_cart_item item_id quantity cart_db = (cart_db, Err NotFound)) \/
  (1 <= quantity <= 10 /\
   exists pre item post,
     cart_db = pre ++ item :: post /\
     (forall y, In y pre -> CartItem.id y <> item_id) /\
     CartItem.id item = item_id /\
     update_cart_item item_id quantity cart_db =
     (pre ++ CartItem.set_quantity quantity item :: post,
      Ok (CartMessage.mk "Cart item updated"
            (Some (CartItem.set_quantity quantity item))))).
Proof.
  unfold update_cart_item.
  destruct ((1 <=? quantity) && (quantity <=? 10))%bool eqn:Hq; cbn [negb].
  - apply andb_true_iff in Hq as [H1 H2].
    apply Z.leb_le in H1, H2. right.
    destruct (Py.next _ cart_db) as [item|] eqn:Hnext.
    + right. split; [lia|].
      destruct (ListFacts.next_some_split _ _ _ Hnext)
        as (pre & post & -> & Hpre & Hitem).
      exists pre, item, post. repeat split.
      * intros y Hy. now apply Z.eqb_neq, Hpre.
      * now apply Z.eqb_eq.
      * now rewrite ListFacts.modify_first_app_skip.
    + left. repeat split; auto; lia.
  - left. split; [|reflexivity].
    apply andb_false_iff in Hq as [H|H]; apply Z.leb_gt in H; lia.
Qed.

Lemma remove_state item_id cart_db :
  fst (remove_from_cart item_id cart_db) =
  filter (fun item => negb (CartItem.id item =? item_id)) cart_db.
Proof.
  unfold remove_from_cart. now destruct (_ =? _).
Qed.

Lemma remove_not_found_iff item_id cart_db :
  snd (remove_from_cart item_id cart_db) = Err NotFound <->
  forall item, In item cart_db -> CartItem.id item <> item_id.
Proof.
  unfold remove_from_cart, Py.len.
  set (f := fun item => negb (CartItem.id item =? item_id)).
  destruct (Z.of_nat (List.length (filter f cart_db)) =?
            Z.of_nat (List.length cart_db)) eqn:Hlen; cbn [snd].
  - apply Z.eqb_eq in Hlen. apply Nat2Z.inj in Hlen. split; [|reflexivity].
    intros _ item Hin.
    pose proof (ListFacts.filter_same_length f cart_db Hlen item Hin) as H.
    unfold f in H. now apply negb_true_iff, Z.eqb_neq in H.
  - split; [discriminate|]. intros H. exfalso.
    apply Z.eqb_neq in Hlen. apply Hlen. f_equal. f_equal.
    apply ListFacts.filter_all. intros x Hx.
    unfold f. now apply negb_true_iff, Z.eqb_neq, H.
Qed.

(** * The cart read-out *)

Lemma sum_map_fold {A} (f : A -> float) (l : list A) (acc : float) :
  fold_left PrimFloat.add (map f l) acc =
  fold_left (fun a x => (a + f x)%float) l acc.
Proof.
  revert acc. induction l as [|x l IH]; intros acc; cbn; [reflexivity|].
  apply IH.
Qed.

(** Every request keeps the items that stay in their order and puts a new
    item, if any, behind them. *)
Lemma step_keeps_order db (cart_db : cart) (op : cart_op) :
  exists keep added,
    template_ids (fst (step db cart_db op)) =
      template_ids (filter keep cart_db) ++ added /\
    (added = [] \/
     exists t, added = [t] /\ ~ In t (template_ids cart_db)).
Proof.
  assert (Hsame : forall c' : cart,
            template_ids c' = template_ids cart_db ->
            exists keep added,
              template_ids c' = template_ids (filter keep cart_db) ++ added /\
              (added = [] \/
               exists t, added = [t] /\ ~ In t (template_ids cart_db))).
  { intros c' E. exists (fun _ => true), [].
    rewrite ListFacts.filter_all by reflexivity.
    rewrite app_nil_r. auto. }
  destruct op as [template_id now|item_id quantity|item_id|]; cbn [step].
  - destruct (Py.next (fun t => Template.id t =? template_id) db)
      as [template|] eqn:Hdb.
    + destruct (in_dec Z.eq_dec template_id (template_ids cart_db))
        as [Hin|Hnew].
      * destruct (in_template_ids_split _ _ Hin)
          as (pre & item & post & -> & Hpre & Hitem).
        rewrite (add_existing _ _ _ _ _ _ _ Hdb Hpre Hitem). cbn [fst].
        apply Hsame. now rewrite !template_ids_app.
      * rewrite (add_new _ _ _ _ _ Hdb Hnew). cbn [fst].
        exists (fun _ => true), [template_id].
        rewrite ListFacts.filter_all by reflexivity.
        rewrite template_ids_app. split; [reflexivity|].
        right. now exists template_id.
    + rewrite (add_unknown_template _ _ _ _ Hdb). now apply Hsame.
  - destruct (update_result item_id quantity cart_db)
      as [[_ ->]|[(_ & _ & ->)|(_ & pre & item & post & -> & _ & _ & ->)]];
      cbn [fst]; apply Hsame; try reflexivity.
    now rewrite !template_ids_app.
  - rewrite remove_state.
    exists (fun item => negb (CartItem.id item =? item_id)), [].
    rewrite app_nil_r. auto.
  - exists (fun _ => false), []. cbn [clear_cart fst].
    split; [|now left].
    now rewrite (SortFacts.filter_none (fun _ => false) cart_db).
Qed.

(** C4. For every cart, Get returns the cart items as the store holds
    them, [total_items] is their number and [total_price] is the sum over
    the items of price times quantity.  The store holds the items in
    insertion order: every request keeps the remaining items in their
    order and puts a new item last.  Adding template 1 twice to the empty
    cart over the seed catalog gives one item with quantity 2,
    [total_items = 1] (the sum of quantities is 2) and
    [total_price = 178.0]. *)
Theorem cart_get_contents (db : list Template.t) (cart_db : cart)
    (op : cart_op) (t0 t1 : string) :
  CartResponse.items (get_cart cart_db) = cart_db /\
  CartResponse.total_items (get_cart cart_db) = Py.len cart_db /\
  CartResponse.total_price (get_cart cart_db) =
    price_times_quantity cart_db /\
  (exists keep added,
     template_ids (fst (step db cart_db op)) =
       template_ids (filter keep cart_db) ++ added /\
     (added = [] \/
      exists t, added = [t] /\ ~ In t (template_ids cart_db))) /\
  (exists item,
     run templates_db [Add 1 t0; Add 1 t1] [] = [item] /\
     CartItem.template_id item = 1 /\
     CartItem.quantity item = 2 /\
     CartResponse.total_items (get_cart [item]) = 1 /\
     CartResponse.total_price (get_cart [item]) = 178%float).
Proof.
  split; [reflexivity|]. split; [reflexivity|].
  split; [apply sum_map_fold|].
  split; [apply step_keeps_order|].
  eexists. split; [reflexivity|]. repeat split.
Qed.

(** * The cart invariant *)

Lemma NoDup_map_filter {A B} (g : A -> B) (f : A -> bool) (l : list A) :
  NoDup (map g l) -> NoDup (map g (filter f l)).
Proof.
  induction l as [|x l IH]; cbn; [auto|].
  intros Hnd. inversion Hnd as [|? ? Hx Hl]; subst.
  destruct (f x); cbn; [|auto].
  constructor; [|auto].
  intros Hin. apply Hx. apply in_map_iff in Hin as (y & Hy & Hin).
  apply filter_In in Hin as [Hin _]. rewrite <- Hy. now apply in_map.
Qed.

Lemma step_one_per_template db (cart_db : cart) (op : cart_op) :
  one_per_template cart_db ->
  one_per_template (fst (step db cart_db op)).
Proof.
  unfold one_per_template. intros Hnd.
  destruct op as [template_id now|item_id quantity|item_id|]; cbn [step].
  - destruct (Py.next (fun t => Template.id t =? template_id) db)
      as [template|] eqn:Hdb.
    + destruct (in_dec Z.eq_dec template_id (template_ids cart_db))
        as [Hin|Hnew].
      * destruct (in_template_ids_split _ _ Hin)
          as (pre & item & post & -> & Hpre & Hitem).
        rewrite (add_existing _ _ _ _ _ _ _ Hdb Hpre Hitem). cbn [fst].
        now rewrite template_ids_app in *.
      * rewrite (add_new _ _ _ _ _ Hdb Hnew). cbn [fst].
        rewrite template_ids_app. cbn.
        apply (Permutation_NoDup (Permutation_cons_append _ _)).
        now constructor.
    + now rewrite (add_unknown_template _ _ _ _ Hdb).
  - destruct (update_result item_id quantity cart_db)
      as [[_ ->]|[(_ & _ & ->)|(_ & pre & item & post & -> & _ & _ & ->)]];
      cbn [fst]; auto.
    now rewrite template_ids_app in *.
  - rewrite remove_state. now apply NoDup_map_filter.
  - constructor.
Qed.

Lemma run_one_per_template db (ops : list cart_op) (cart_db : cart) :
  one_per_template cart_db -> one_per_template (run db ops cart_db).
Proof.
  revert cart_db. induction ops as [|op ops IH]; intros c Hc; cbn; [auto|].
  apply IH. now apply step_one_per_template.
Qed.

(** C5. Whatever requests to add, update, remove and clear are served one
    after the other from the empty cart, the cart holds at most one item
    per template id; adding a template that the cart already holds raises
    the quantity of its item by one, in place, and inserts nothing. *)
Theorem cart_one_item_per_template (db : list Template.t)
    (ops : list cart_op) :
  one_per_template (run db ops []) /\
  (forall now template_id template cart_db,
     Py.next (fun t => Template.id t =? template_id) db = Some template ->
     In template_id (template_ids cart_db) ->
     exists pre item post,
       cart_db = pre ++ item :: post /\
       ~ In template_id (template_ids pre) /\
       CartItem.template_id item = template_id /\
       fst (add_to_cart db now template_id cart_db) =
       pre ++ CartItem.set_quantity (CartItem.quantity item + 1) item
           :: post).
Proof.
  split.
  - apply run_one_per_template. constructor.
  - intros now template_id template cart_db Hdb Hin.
    destruct (in_template_ids_split _ _ Hin)
      as (pre & item & post & -> & Hpre & Hitem).
    exists pre, item, post.
    now rewrite (add_existing _ _ _ _ _ _ _ Hdb Hpre Hitem).
Qed.

(** * Cart item ids *)

(** C6. A new cart item gets the id [len(cart_db) + 1], so ids repeat
    once items have been removed: over the seed catalog, adding templates
    1 and 2, removing item 1 and adding template 3 leaves two different
    items that both carry the id 2. *)
Theorem cart_ids_repeat_after_removal :
  (forall db now template_id template cart_db,
     Py.next (fun t => Template.id t =? template_id) db = Some template ->
     ~ In template_id (template_ids cart_db) ->
     exists item,
       fst (add_to_cart db now template_id cart_db) = cart_db ++ [item] /\
       CartItem.id item = Py.len cart_db + 1) /\
  (exists ops a b,
     forallb add_or_remove ops = true /\
     run templates_db ops [] = [a; b] /\
     CartItem.id a = CartItem.id b /\
     CartItem.template_id a <> CartItem.template_id b).
Proof.
  split.
  - intros db now template_id template cart_db Hdb Hnew.
    rewrite (add_new _ _ _ _ _ Hdb Hnew). cbn [fst].
    eexists. split; reflexivity.
  - exists [Add 1 "2024-02-01T09:00:00"; Add 2 "2024-02-01T09:01:00";
            Remove 1; Add 3 "2024-02-01T09:02:00"].
    eexists _, _. split; [reflexivity|].
    split; [reflexivity|]. split; [reflexivity|]. cbn. discriminate.
Qed.

(** * Quantities *)

Lemma set_quantity_same (item : CartItem.t) :
  CartItem.set_quantity (CartItem.quantity item) item = item.
Proof. now destruct item. Qed.

Lemma run_adds_existing db template_id template (nows : list string)
    (pre : cart) (item : CartItem.t) :
  Py.next (fun t => Template.id t =? template_id) db = Some template ->
  ~ In template_id (template_ids pre) ->
  CartItem.template_id item = template_id ->
  run db (map (Add template_id) nows) (pre ++ [item]) =
  pre ++ [CartItem.set_quantity (CartItem.quantity item + Py.len nows) item].
Proof.
  intros Hdb Hpre. revert item.
  induction nows as [|now nows IH]; intros item Hitem.
  - cbn. unfold Py.len. cbn. now rewrite Z.add_0_r, set_quantity_same.
  - cbn [map run fold_left step].
    rewrite (add_existing _ _ _ _ _ _ _ Hdb Hpre Hitem). cbn [fst].
    fold (run db (map (Add template_id) nows)
            (pre ++ [CartItem.set_quantity (CartItem.quantity item + 1) item])).
    rewrite IH by (now destruct item).
    destruct item as [i t tp q a].
    unfold Py.len, CartItem.set_quantity.
    cbn [List.length CartItem.quantity CartItem.id CartItem.template_id
         CartItem.template CartItem.added_at].
    replace (q + 1 + Z.of_nat (List.length nows))
      with (q + Z.of_nat (S (List.length nows))) by lia.
    reflexivity.
Qed.

(** C7. Adding a template of the catalog that the cart does not hold yet
    n times in a row, for any n of 1 or more, leaves one item for it whose
    quantity is n, whatever n is; an update with a quantity outside 1 to
    10 is rejected and leaves the cart alone, and an update that succeeds
    sets a quantity within 1 to 10. *)
Theorem add_quantity_unbounded (db : list Template.t) (template_id : Z)
    (template : Template.t) (nows : list string) (cart_db : cart) :
  Py.next (fun t => Template.id t =? template_id) db = Some template ->
  ~ In template_id (template_ids cart_db) ->
  1 <= Py.len nows ->
  (exists item,
     run db (map (Add template_id) nows) cart_db = cart_db ++ [item] /\
     CartItem.template_id item = template_id /\
     CartItem.quantity item = Py.len nows) /\
  (forall item_id quantity c,
     ~ 1 <= quantity <= 10 ->
     update_cart_item item_id quantity c = (c, Err ValidationError)) /\
  (forall item_id quantity c c' m,
     update_cart_item item_id quantity c = (c', Ok m) ->
     1 <= quantity <= 10 /\
     exists pre item post,
       c = pre ++ item :: post /\
       c' = pre ++ CartItem.set_quantity quantity item :: post).
Proof.
  intros Hdb Hnew Hn. split; [|split].
  - destruct nows as [|now nows]; [unfold Py.len in Hn; cbn in Hn; lia|].
    cbn [map run fold_left step].
    rewrite (add_new _ _ _ _ _ Hdb Hnew). cbn [fst].
    fold (run db (map (Add template_id) nows)
            (cart_db ++
             [CartItem.mk (Py.len cart_db + 1) template_id template 1 now])).
    rewrite (run_adds_existing _ _ _ _ _ _ Hdb Hnew) by reflexivity.
    eexists. split; [reflexivity|]. split; [reflexivity|].
    cbn [CartItem.quantity CartItem.set_quantity].
    unfold Py.len. cbn [List.length]. lia.
  - intros item_id quantity c Hq.
    destruct (update_result item_id quantity c)
      as [[_ E]|[(Hok & _)|(Hok & _)]]; [exact E|contradiction..].
  - intros item_id quantity c c' m E.
    destruct (update_result item_id quantity c)
      as [[_ E']|[(_ & _ & E')|(Hok & pre & item & post & Hc & _ & _ & E')]];
      rewrite E' in E; try discriminate E.
    split; [exact Hok|]. exists pre, item, post.
    split; [exact Hc|]. now injection E as <- _.
Qed.

Lemma add_quantity_unbounded_witness :
  (exists item,
     run templates_db (map (Add 1) (repeat "2024-02-01T09:00:00" 11)) [] =
       [] ++ [item] /\
     CartItem.template_id item = 1 /\
     CartItem.quantity item = Py.len (repeat "2024-02-01T09:00:00" 11)) /\
  (forall item_id quantity c,
     ~ 1 <= quantity <= 10 ->
     update_cart_item item_id quantity c = (c, Err ValidationError)) /\
  (forall item_id quantity c c' m,
     update_cart_item item_id quantity c = (c', Ok m) ->
     1 <= quantity <= 10 /\
     exists pre item post,
       c = pre ++ item :: post /\
       c' = pre ++ CartItem.set_quantity quantity item :: post).
Proof.
  apply (add_quantity_unbounded templates_db 1
           (Template.mk 1 "ModernShop Pro"
              "A fully responsive e-commerce template built with the latest technologies. Features include product filtering, shopping cart, payment integration, and a beautiful admin dashboard. Perfect for launching your online store quickly and professionally."
              89.0%float "E-commerce" "TechStudio"
              "https://images.unsplash.com/photo-1555066931-4365d14bab8c?w=400"
              1250 4.8%float "2024-01-15T10:00:00Z"
              ["responsive"; "ecommerce"; "modern"; "dashboard"])
           (repeat "2024-02-01T09:00:00" 11) []).
  - reflexivity.
  - cbn. tauto.
  - vm_compute. discriminate.
Defined.

(** * Removing cart items *)

(** C8. Remove fails with NotFound exactly when no cart item has the
    given id, and then the cart is what it was; when some item has the id,
    Remove succeeds and the cart keeps, in their order, the items with
    another id and no item with that id. *)
Theorem remove_not_found_exact (item_id : Z) (cart_db : cart) :
  (snd (remove_from_cart item_id cart_db) = Err NotFound <->
   forall item, In item cart_db -> CartItem.id item <> item_id) /\
  (snd (remove_from_cart item_id cart_db) = Err NotFound ->
   fst (remove_from_cart item_id cart_db) = cart_db) /\
  ((exists item, In item cart_db /\ CartItem.id item = item_id) ->
   snd (remove_from_cart item_id cart_db) =
     Ok (CartMessage.mk "Item removed from cart" None) /\
   fst (remove_from_cart item_id cart_db) =
     filter (fun item => negb (CartItem.id item =? item_id)) cart_db /\
   forall item,
     In item (fst (remove_from_cart item_id cart_db)) <->
     In item cart_db /\ CartItem.id item <> item_id).
Proof.
  split; [apply remove_not_found_iff|]. split.
  - intros H.
    pose proof (proj1 (remove_not_found_iff item_id cart_db) H) as Hnone.
    rewrite remove_state. apply ListFacts.filter_all.
    intros x Hx. now apply negb_true_iff, Z.eqb_neq, Hnone.
  - intros (item & Hin & Hid). split; [|split].
    + pose proof (remove_not_found_iff item_id cart_db) as Hnf.
      unfold remove_from_cart in *.
      destruct (_ =? _); cbn [snd] in *; [|reflexivity].
      exfalso. apply (proj1 Hnf eq_refl item Hin Hid).
    + apply remove_state.
    + intros x. rewrite remove_state, filter_In, negb_true_iff, Z.eqb_neq.
      tauto.
Qed.

Lemma filter_split_length {A} (f : A -> bool) (l : list A) :
  Py.len (filter (fun x => negb (f x)) l) = Py.len l - Py.len (filter f l).
Proof.
  unfold Py.len. induction l as [|x l IH]; [reflexivity|].
  simpl filter. destruct (f x); simpl negb; cbv iota; simpl List.length; lia.
Qed.

(** C10. When several cart items carry the same id, one Remove with that
    id succeeds and deletes every one of them.  The state is reachable:
    after adding templates 1 and 2, removing item 1 and adding template 3
    over the seed catalog, two items carry the id 2, and removing id 2
    empties the cart. *)
Theorem remove_deletes_every_duplicate (item_id : Z) (cart_db : cart) :
  2 <= count_id item_id cart_db ->
  snd (remove_from_cart item_id cart_db) =
    Ok (CartMessage.mk "Item removed from cart" None) /\
  count_id item_id (fst (remove_from_cart item_id cart_db)) = 0 /\
  Py.len (fst (remove_from_cart item_id cart_db)) =
    Py.len cart_db - count_id item_id cart_db /\
  (exists ops,
     forallb add_or_remove ops = true /\
     count_id 2 (run templates_db ops []) = 2 /\
     run templates_db (ops ++ [Remove 2]) [] = []).
Proof.
  intros Hcount. split; [|split; [|split]].
  - unfold remove_from_cart.
    rewrite (filter_split_length (fun item => CartItem.id item =? item_id)).
    fold (count_id item_id cart_db).
    destruct (_ =? _) eqn:E; [|reflexivity].
    apply Z.eqb_eq in E. lia.
  - rewrite remove_state. unfold count_id.
    rewrite SortFacts.filter_none; [reflexivity|].
    intros x Hx. apply filter_In in Hx as [_ Hx].
    now apply negb_true_iff in Hx.
  - rewrite remove_state.
    apply (filter_split_length (fun item => CartItem.id item =? item_id)).
  - exists [Add 1 "2024-02-01T09:00:00"; Add 2 "2024-02-01T09:01:00";
            Remove 1; Add 3 "2024-02-01T09:02:00"].
    repeat split.
Qed.

Lemma remove_deletes_every_duplicate_witness :
  snd (remove_from_cart 2
         (run templates_db
            [Add 1 "2024-02-01T09:00:00"; Add 2 "2024-02-01T09:01:00";
             Remove 1; Add 3 "2024-02-01T09:02:00"] [])) =
    Ok (CartMessage.mk "Item removed from cart" None) /\
  count_id 2
    (fst (remove_from_cart 2
            (run templates_db
               [Add 1 "2024-02-01T09:00:00"; Add 2 "2024-02-01T09:01:00";
                Remove 1; Add 3 "2024-02-01T09:02:00"] []))) = 0 /\
  Py.len
    (fst (remove_from_cart 2
            (run templates_db
               [Add 1 "2024-02-01T09:00:00"; Add 2 "2024-02-01T09:01:00";
                Remove 1; Add 3 "2024-02-01T09:02:00"] []))) =
    Py.len
      (run templates_db
         [Add 1 "2024-02-01T09:00:00"; Add 2 "2024-02-01T09:01:00";
          Remove 1; Add 3 "2024-02-01T09:02:00"] []) -
    count_id 2
      (run templates_db
         [Add 1 "2024-02-01T09:00:00"; Add 2 "2024-02-01T09:01:00";
          Remove 1; Add 3 "2024-02-01T09:02:00"] []) /\
  (exists ops,
     forallb add_or_remove ops = true /\
     count_id 2 (run templates_db ops []) = 2 /\
     run templates_db (ops ++ [Remove 2]) [] = []).
Proof.
  apply (remove_deletes_every_duplicate 2
           (run templates_db
              [Add 1 "2024-02-01T09:00:00"; Add 2 "2024-02-01T09:01:00";
               Remove 1; Add 3 "2024-02-01T09:02:00"] [])).
  vm_compute. discriminate.
Defined.

(** * By Category *)






(** * Further properties of the catalog views *)

(** X1. Get by ID answers with the first template of the catalog that has
    the id, and with NotFound exactly when no template has it. *)
Theorem get_template_first_match (db : list Template.t) (template_id : Z) :
  (forall t,
     get_template db template_id = Ok t <->
     exists pre post,
       db = pre ++ t :: post /\
       Template.id t = template_id /\
       forall y, In y pre -> Template.id y <> template_id) /\
  (get_template db template_id = Err NotFound <->
   forall t, In t db -> Template.id t <> template_id).
Proof.
  unfold get_template. split.
  - intros t. split.
    + destruct (Py.next _ db) as [t'|] eqn:Hn; [|discriminate].
      intros [= ->].
      apply ListFacts.next_some_split in Hn
        as (pre & post & -> & Hpre & Ht).
      exists pre, post. repeat split; [now apply Z.eqb_eq|].
      intros y Hy. now apply Z.eqb_neq, Hpre.
    + intros (pre & post & -> & Ht & Hpre).
      rewrite (ListFacts.next_app_skip _ pre t post); [reflexivity| |].
      * intros y Hy. now apply Z.eqb_neq, Hpre.
      * now apply Z.eqb_eq.
  - destruct (Py.next _ db) as [t'|] eqn:Hn.
    + split; [discriminate|]. intros H. exfalso.
      apply ListFacts.next_some_split in Hn
        as (pre & post & -> & _ & Ht).
      apply Z.eqb_eq in Ht. apply (H t'); [|exact Ht].
      apply in_or_app. right. now left.
    + split; [|reflexivity]. intros _ t Ht.
      rewrite ListFacts.next_none in Hn. now apply Z.eqb_neq, Hn.
Qed.

(** X2. In a catalog whose ids are unique, Get by ID finds every template
    under its own id. *)
Theorem get_template_finds_member (db : list Template.t) (t : Template.t) :
  NoDup (map Template.id db) -> In t db ->
  get_template db (Template.id t) = Ok t.
Proof.
  intros Hnd Hin. unfold get_template.
  apply in_split in Hin as (pre & post & ->).
  rewrite (ListFacts.next_app_skip _ pre t post); [reflexivity| |].
  - intros y Hy. apply Z.eqb_neq. intros E.
    rewrite map_app in Hnd. cbn in Hnd.
    apply NoDup_remove_2 in Hnd. apply Hnd.
    apply in_or_app. left. rewrite <- E. now apply in_map.
  - apply Z.eqb_refl.
Qed.

Lemma get_template_finds_member_witness :
  match nth_error templates_db 5 with
  | Some t => get_template templates_db (Template.id t) = Ok t
  | None => False
  end.
Proof.
  cbn [nth_error templates_db].
  apply get_template_finds_member.
  - repeat constructor; cbn; intuition discriminate.
  - cbn. tauto.
Defined.

(** X3. Add fails with NotFound exactly when Get by ID fails for the
    template id, and then it leaves the cart alone; it never answers with a
    validation error, and when it succeeds the item it reports is in the
    cart under that template id. *)
Theorem add_to_cart_not_found_exact (db : list Template.t) (now : string)
    (template_id : Z) (cart_db : cart) :
  (snd (add_to_cart db now template_id cart_db) = Err NotFound <->
   get_template db template_id = Err NotFound) /\
  (snd (add_to_cart db now template_id cart_db) = Err NotFound ->
   fst (add_to_cart db now template_id cart_db) = cart_db) /\
  snd (add_to_cart db now template_id cart_db) <> Err ValidationError /\
  (forall m,
     snd (add_to_cart db now template_id cart_db) = Ok m ->
     exists item,
       CartMessage.item m = Some item /\
       CartItem.template_id item = template_id /\
       In item (fst (add_to_cart db now template_id cart_db))).
Proof.
  unfold get_template.
  destruct (Py.next (fun t => Template.id t =? template_id) db)
    as [template|] eqn:Hdb.
  - destruct (in_dec Z.eq_dec template_id (template_ids cart_db))
      as [Hin|Hnew].
    + destruct (in_template_ids_split _ _ Hin)
        as (pre & item & post & -> & Hpre & Hitem).
      rewrite (add_existing _ _ _ _ _ _ _ Hdb Hpre Hitem). cbn [fst snd].
      repeat split; try discriminate.
      intros m [= <-]. eexists. split; [reflexivity|].
      split; [exact Hitem|]. apply in_or_app. right. now left.
    + rewrite (add_new _ _ _ _ _ Hdb Hnew). cbn [fst snd].
      repeat split; try discriminate.
      intros m [= <-]. eexists. split; [reflexivity|].
      split; [reflexivity|]. apply in_or_app. right. now left.
  - rewrite (add_unknown_template _ _ _ _ Hdb). cbn [fst snd].
    repeat split; try discriminate. 
Qed.

Lemma StronglySorted_app_cross {A} (R : A -> A -> Prop) (l1 l2 : list A) :
  StronglySorted R (l1 ++ l2) ->
  StronglySorted R l1 /\
  forall a b, In a l1 -> In b l2 -> R a b.
Proof.
  induction l1 as [|x l1 IH]; cbn; intros Hs.
  - split; [constructor|tauto].
  - inversion Hs as [|? ? Hs' Hx]; subst.
    destruct (IH Hs') as [H1 H2]. split.
    + constructor; [exact H1|].
      apply Forall_app in Hx. tauto.
    + intros a b [<-|Ha] Hb; [|now apply H2].
      rewrite Forall_forall in Hx. apply Hx, in_or_app. now right.
Qed.

(** * Pages of the List operation *)

Lemma firstn_add {A} (n k : nat) (l : list A) :
  firstn (n + k) l = firstn n l ++ firstn k (skipn n l).
Proof.
  revert l. induction n as [|n IH]; intros [|x l]; cbn;
    rewrite ?firstn_nil; try reflexivity.
  now rewrite IH.
Qed.

(** Two slices that meet make one slice. *)
Lemma slice_app {A} (l : list A) (a b c : Z) :
  0 <= a <= b -> b <= c ->
  Py.slice l a b ++ Py.slice l b c = Py.slice l a c.
Proof.
  intros Hab Hbc. rewrite !PyFacts.slice_nonneg by lia.
  replace (Z.to_nat (c - a)) with (Z.to_nat (b - a) + Z.to_nat (c - b))%nat
    by lia.
  rewrite firstn_add, skipn_skipn. do 3 f_equal. lia.
Qed.

(** X8. A page of [l1] templates followed by the page of [l2] templates
    that starts where it ends is the page of [l1 + l2] templates: paging
    through a listing neither drops nor repeats a template. *)
Theorem list_pages_concatenate (db : list Template.t)
    (category : option string) (l1 l2 offset : Z)
    (sort_by : sort_field) (order : sort_order) :
  1 <= l1 -> 1 <= l2 -> l1 + l2 <= 100 -> 0 <= offset ->
  exists r1 r2 r12,
    get_templates db category l1 offset sort_by order = Ok r1 /\
    get_templates db category l2 (offset + l1) sort_by order = Ok r2 /\
    get_templates db category (l1 + l2) offset sort_by order = Ok r12 /\
    ListResponse.templates r1 ++ ListResponse.templates r2 =
      ListResponse.templates r12 /\
    ListResponse.total r1 = ListResponse.total r12 /\
    ListResponse.total r2 = ListResponse.total r12 /\
    ListResponse.has_more r2 = ListResponse.has_more r12.
Proof.
  intros H1 H2 H12 Ho.
  do 3 eexists.
  split; [apply get_templates_valid; lia|].
  split; [apply get_templates_valid; lia|].
  split; [apply get_templates_valid; lia|].
  cbn [ListResponse.templates ListResponse.total ListResponse.has_more].
  split; [|split; [reflexivity|split; [reflexivity|]]].
  - rewrite <- Z.add_assoc. apply slice_app; lia.
  - now rewrite Z.add_assoc.
Qed.

Lemma list_pages_concatenate_witness :
  exists r1 r2 r12,
    get_templates templates_db None 2 1 Price Asc = Ok r1 /\
    get_templates templates_db None 3 (1 + 2) Price Asc = Ok r2 /\
    get_templates templates_db None (2 + 3) 1 Price Asc = Ok r12 /\
    ListResponse.templates r1 ++ ListResponse.templates r2 =
      ListResponse.templates r12 /\
    ListResponse.total r1 = ListResponse.total r12 /\
    ListResponse.total r2 = ListResponse.total r12 /\
    ListResponse.has_more r2 = ListResponse.has_more r12.
Proof.
  apply (list_pages_concatenate templates_db None 2 3 1 Price Asc); lia.
Defined.

(** X9. [has_more] tells whether the next page has anything on it: it is
    true exactly when the page that starts at [offset + limit] is not
    empty, whatever the size asked for that page. *)
Theorem has_more_iff_next_page (db : list Template.t)
    (category : option string) (limit next_limit offset : Z)
    (sort_by : sort_field) (order : sort_order) :
  1 <= limit <= 100 -> 1 <= next_limit <= 100 -> 0 <= offset ->
  exists r next,
    get_templates db category limit offset sort_by order = Ok r /\
    get_templates db category next_limit (offset + limit) sort_by order =
      Ok next /\
    (ListResponse.has_more r = true <-> ListResponse.templates next <> []).
Proof.
  intros Hl Hn Ho.
  do 2 eexists.
  split; [apply get_templates_valid; lia|].
  split; [apply get_templates_valid; lia|].
  cbn [ListResponse.templates ListResponse.has_more].
  set (sorted := sorted_templates db category sort_by order).
  assert (Hlen : Py.len sorted = Py.len (category_filtered db category))
    by apply PyFacts.sort_length.
  rewrite <- Hlen.
  pose proof (PyFacts.slice_length sorted (offset + limit)
                (offset + limit + next_limit)) as Hs.
  pose proof (PyFacts.len_nonneg sorted) as Hnn.
  unfold Py.slice_bound in Hs.
  destruct (offset + limit <? 0) eqn:E1; [apply Z.ltb_lt in E1; lia|].
  destruct (offset + limit + next_limit <? 0) eqn:E2;
    [apply Z.ltb_lt in E2; lia|].
  rewrite Z.ltb_lt. split.
  - intros Hlt Hnil. rewrite Hnil in Hs. unfold Py.len at 1 in Hs.
    cbn [List.length] in Hs. lia.
  - intros Hne.
    destruct (Z_lt_le_dec (offset + limit) (Py.len sorted)) as [Hlt|Hge];
      [exact Hlt|].
    exfalso. apply Hne.
    destruct (Py.slice sorted (offset + limit)
                (offset + limit + next_limit)); [reflexivity|].
    unfold Py.len at 1 in Hs. cbn [List.length] in Hs. lia.
Qed.

Lemma has_more_iff_next_page_witness :
  exists r next,
    get_templates templates_db None 4 0 Downloads Desc = Ok r /\
    get_templates templates_db None 10 (0 + 4) Downloads Desc = Ok next /\
    (ListResponse.has_more r = true <-> ListResponse.templates next <> []).
Proof.
  apply (has_more_iff_next_page templates_db None 4 10 0 Downloads Desc);
    lia.
Defined.

Lemma lower_empty (s : string) : Py.lower s = "" -> s = "".
Proof. destruct s; [reflexivity|discriminate]. Qed.

(** X10. The category of the List operation is compared without regard
    to letter case: two spellings that lower-case to the same text give
    the same answer, and the empty category gives the answer that no
    category gives. *)
Theorem list_category_ignores_case (db : list Template.t) (c1 c2 : string)
    (limit offset : Z) (sort_by : sort_field) (order : sort_order) :
  Py.lower c1 = Py.lower c2 ->
  get_templates db (Some c1) limit offset sort_by order =
    get_templates db (Some c2) limit offset sort_by order /\
  get_templates db (Some "") limit offset sort_by order =
    get_templates db None limit offset sort_by order.
Proof.
  intros Hc. split; [|reflexivity].
  unfold get_templates, Py.truthy, category_is.
  destruct c1 as [|a1 s1], c2 as [|a2 s2]; try reflexivity;
    try discriminate Hc.
  cbn [String.eqb negb]. now rewrite Hc.
Qed.

Lemma list_category_ignores_case_witness :
  get_templates templates_db (Some "BLOG") 10 0 Price Asc =
    get_templates templates_db (Some "blog") 10 0 Price Asc /\
  get_templates templates_db (Some "") 10 0 Price Asc =
    get_templates templates_db None 10 0 Price Asc.
Proof.
  apply (list_category_ignores_case templates_db "BLOG" "blog" 10 0 Price Asc).
  reflexivity.
Defined.

(** * Ascending against descending *)

Section NoTies.
Context {A : Type} (lt : A -> A -> bool) (P : A -> Prop).
Hypothesis Hswo : strict_weak_on lt P.

Lemma tie_trans (a x y : A) :
  P a -> P x -> P y ->
  tie lt a x = true -> tie lt a y = true -> tie lt x y = true.
Proof.
  destruct Hswo as [_ Htrans]. unfold tie.
  intros Pa Px Py Hx Hy.
  apply andb_true_iff in Hx as [Hax Hxa], Hy as [Hay Hya].
  apply negb_true_iff in Hax, Hxa, Hay, Hya.
  rewrite (Htrans y a x Py Pa Px Hay Hxa).
  now rewrite (Htrans x a y Px Pa Py Hax Hya).
Qed.

Lemma no_ties_filter_short (a : A) (l : list A) :
  P a -> Forall P l -> no_ties lt l = true ->
  (List.length (filter (tie lt a) l) <= 1)%nat.
Proof.
  intros Pa Pl. induction Pl as [|x l Px Pl IH]; cbn; [lia|].
  intros Hnt. apply andb_true_iff in Hnt as [Hx Hl].
  destruct (tie lt a x) eqn:Hax; [|now apply IH].
  rewrite SortFacts.filter_none; [cbn; lia|].
  intros z Hz. destruct (tie lt a z) eqn:Haz; [|reflexivity].
  rewrite Forall_forall in Pl. rewrite forallb_forall in Hx.
  pose proof (tie_trans a x z Pa Px (Pl z Hz) Hax Haz) as Hxz.
  specialize (Hx z Hz). unfold tie in Hxz.
  apply andb_true_iff in Hxz as [H1 H2]. apply negb_true_iff in H1, H2.
  rewrite H1, H2 in Hx. discriminate.
Qed.

Lemma rev_short (l : list A) : (List.length l <= 1)%nat -> rev l = l.
Proof. destruct l as [|x [|y l]]; cbn; try reflexivity; lia. Qed.

(** Without ties the reverse sort is the forward sort read backwards. *)
Lemma sort_reverse_no_ties (l : list A) :
  Forall P l -> no_ties lt l = true ->
  Py.sort lt true l = rev (Py.sort lt false l).
Proof.
  intros Pl Hnt. unfold Py.sort. f_equal.
  apply (SortFacts.sort_forward_unique lt P Hswo); auto.
  - apply (Permutation_Forall
             (Permutation_sym (PyFacts.sort_forward_perm lt (rev l)))).
    now apply Forall_rev.
  - apply (SortFacts.sort_forward_sorted lt P Hswo). now apply Forall_rev.
  - intros a Pa.
    rewrite (SortFacts.sort_forward_ties lt P Hswo)
      by auto using Forall_rev.
    rewrite filter_rev. apply rev_short.
    now apply no_ties_filter_short.
Qed.

Lemma no_ties_filter (f : A -> bool) (l : list A) :
  no_ties lt l = true -> no_ties lt (filter f l) = true.
Proof.
  induction l as [|x l IH]; cbn; [reflexivity|].
  intros H. apply andb_true_iff in H as [Hx Hl].
  destruct (f x); cbn; [|auto].
  rewrite (IH Hl), andb_true_r.
  apply forallb_forall. intros y Hy. apply filter_In in Hy as [Hy _].
  rewrite forallb_forall in Hx. auto.
Qed.

End NoTies.

Lemma slice_whole {A} (l : list A) (hi : Z) :
  Py.len l <= hi -> Py.slice l 0 hi = l.
Proof.
  intros H. pose proof (PyFacts.len_nonneg l).
  rewrite PyFacts.slice_nonneg by lia. cbn [Z.to_nat skipn].
  apply firstn_all2. unfold Py.len in *. lia.
Qed.

(** X11. When no two templates of the catalog have the same sort key, the
    descending listing is the ascending listing read backwards; a limit
    that takes in the whole catalog shows it on the first page. *)
Theorem list_desc_reverses_asc (db : list Template.t)
    (category : option string) (limit : Z) (sort_by : sort_field) :
  Forall (fun t => key_defined sort_by t = true) db ->
  no_ties (key_lt sort_by) db = true ->
  1 <= limit <= 100 -> Py.len db <= limit ->
  sorted_templates db category sort_by Desc =
    rev (sorted_templates db category sort_by Asc) /\
  exists asc desc,
    get_templates db category limit 0 sort_by Asc = Ok asc /\
    get_templates db category limit 0 sort_by Desc = Ok desc /\
    ListResponse.templates desc = rev (ListResponse.templates asc).
Proof.
  intros Hdb Hnt Hl Hlen.
  assert (Hrev : sorted_templates db category sort_by Desc =
                 rev (sorted_templates db category sort_by Asc)).
  { unfold sorted_templates. rewrite category_filtered_filter.
    apply (sort_reverse_no_ties _ _ (key_lt_strict_weak sort_by)).
    - rewrite Forall_forall in Hdb |- *.
      intros t Ht. apply filter_In in Ht. now apply Hdb.
    - now apply no_ties_filter. }
  split; [exact Hrev|].
  do 2 eexists.
  split; [apply get_templates_valid; lia|].
  split; [apply get_templates_valid; lia|].
  cbn [ListResponse.templates].
  assert (Hshort : forall order,
            Py.len (sorted_templates db category sort_by order) <= 0 + limit).
  { intros order. unfold sorted_templates.
    rewrite PyFacts.sort_length, category_filtered_filter.
    pose proof (ListFacts.filter_length_le (in_category category) db).
    unfold Py.len in *. lia. }
  rewrite !slice_whole by apply Hshort. exact Hrev.
Qed.

Lemma list_desc_reverses_asc_witness :
  sorted_templates templates_db None Price Desc =
    rev (sorted_templates templates_db None Price Asc) /\
  exists asc desc,
    get_templates templates_db None 10 0 Price Asc = Ok asc /\
    get_templates templates_db None 10 0 Price Desc = Ok desc /\
    ListResponse.templates desc = rev (ListResponse.templates asc).
Proof.
  apply (list_desc_reverses_asc templates_db None 10 Price).
  - repeat constructor.
  - reflexivity.
  - lia.
  - unfold Py.len. cbn. lia.
Defined.

(** * More on Search *)

Lemma filter_filter {A} (f g : A -> bool) (l : list A) :
  filter f (filter g l) = filter (fun x => g x && f x) l.
Proof.
  induction l as [|x l IH]; cbn; [reflexivity|].
  destruct (g x); cbn; [destruct (f x)|]; now rewrite IH.
Qed.

Lemma search_valid db q category min_price max_price min_rating :
  q <> "" -> valid_filters min_price max_price min_rating ->
  search_templates db q category min_price max_price min_rating =
  Ok (SearchResponse.mk q category
        (filter (search_keep q category min_price max_price min_rating) db)
        (Py.len
           (filter (search_keep q category min_price max_price min_rating)
              db))).
Proof.
  intros Hq (H1 & H2 & H3 & H4). unfold search_templates.
  assert (Hlen : Nat.leb 1 (String.length q) = true)
    by (destruct q; [congruence|reflexivity]).
  rewrite Hlen, H1, H2, H3, H4. cbn [andb negb].
  now rewrite search_loop_filter.
Qed.

(** X12. The filters of Search only narrow the unfiltered search: the
    results with a category, a price range and a minimum rating are the
    results of the same query without them, in the same order, less the
    templates that one of the filters turns away. *)
Theorem search_filters_narrow (db : list Template.t) (q : string)
    (category : option string)
    (min_price max_price min_rating : option float) :
  q <> "" -> valid_filters min_price max_price min_rating ->
  exists r r0,
    search_templates db q category min_price max_price min_rating = Ok r /\
    search_templates db q None None None None = Ok r0 /\
    SearchResponse.results r =
      filter (filters_keep category min_price max_price min_rating)
        (SearchResponse.results r0) /\
    SearchResponse.total r <= SearchResponse.total r0.
Proof.
  intros Hq Hv. do 2 eexists.
  split; [now apply search_valid|].
  split; [apply search_valid; [exact Hq|repeat split]|].
  cbn [SearchResponse.results SearchResponse.total].
  assert (E : filter (search_keep q category min_price max_price min_rating)
                db =
              filter (filters_keep category min_price max_price min_rating)
                (filter (search_keep q None None None None) db)).
  { rewrite filter_filter. apply filter_ext. intros t.
    unfold search_keep, filters_keep. cbn [in_category].
    rewrite !andb_true_r, !andb_assoc. reflexivity. }
  split; [exact E|].
  rewrite E. unfold Py.len.
  pose proof (ListFacts.filter_length_le
                (filters_keep category min_price max_price min_rating)
                (filter (search_keep q None None None None) db)).
  lia.
Qed.

Lemma search_filters_narrow_witness :
  exists r r0,
    search_templates templates_db "pro" (Some "business")
      (Some 80%float) None (Some 4.5%float) = Ok r /\
    search_templates templates_db "pro" None None None None = Ok r0 /\
    SearchResponse.results r =
      filter (filters_keep (Some "business") (Some 80%float) None
                (Some 4.5%float))
        (SearchResponse.results r0) /\
    SearchResponse.total r <= SearchResponse.total r0.
Proof.
  apply (search_filters_narrow templates_db "pro" (Some "business")
           (Some 80%float) None (Some 4.5%float)).
  - discriminate.
  - repeat split.
Defined.

(** X13. Search does not tell the letter case of the query: two queries
    that lower-case to the same text find the same templates. *)
Theorem search_query_ignores_case (db : list Template.t) (q1 q2 : string)
    (category : option string)
    (min_price max_price min_rating : option float) :
  q1 <> "" -> Py.lower q1 = Py.lower q2 ->
  valid_filters min_price max_price min_rating ->
  exists r1 r2,
    search_templates db q1 category min_price max_price min_rating = Ok r1 /\
    search_templates db q2 category min_price max_price min_rating = Ok r2 /\
    SearchResponse.results r1 = SearchResponse.results r2 /\
    SearchResponse.total r1 = SearchResponse.total r2.
Proof.
  intros Hq1 Hlow Hv.
  assert (Hq2 : q2 <> "").
  { intros ->. apply Hq1, lower_empty. exact Hlow. }
  do 2 eexists.
  split; [now apply search_valid|]. split; [now apply search_valid|].
  cbn [SearchResponse.results SearchResponse.total].
  unfold search_keep. rewrite Hlow. split; reflexivity.
Qed.

Lemma search_query_ignores_case_witness :
  exists r1 r2,
    search_templates templates_db "MODERN" None None None None = Ok r1 /\
    search_templates templates_db "Modern" None None None None = Ok r2 /\
    SearchResponse.results r1 = SearchResponse.results r2 /\
    SearchResponse.total r1 = SearchResponse.total r2.
Proof.
  apply (search_query_ignores_case templates_db "MODERN" "Modern"
           None None None None).
  - discriminate.
  - reflexivity.
  - repeat split.
Defined.

(** X14. A price range whose upper end lies below its lower end finds
    nothing, in a catalog whose prices are numbers. *)
Theorem search_empty_price_range (db : list Template.t) (q : string)
    (category : option string) (lo hi : float) (min_rating : option float) :
  q <> "" -> valid_filters (Some lo) (Some hi) min_rating ->
  Forall (fun t => key_defined Price t = true) db ->
  (hi <? lo)%float = true ->
  exists r,
    search_templates db q category (Some lo) (Some hi) min_rating = Ok r /\
    SearchResponse.results r = [] /\
    SearchResponse.total r = 0.
Proof.
  intros Hq Hv Hdb Hrange.
  eexists. split; [now apply search_valid|].
  cbn [SearchResponse.results SearchResponse.total].
  assert (E : filter (search_keep q category (Some lo) (Some hi) min_rating)
                db = []).
  { apply SortFacts.filter_none. intros t Ht.
    rewrite Forall_forall in Hdb. specialize (Hdb t Ht).
    cbn [key_defined] in Hdb.
    destruct Hv as (Hlo & Hhi & _).
    cbn [check_ge] in Hlo, Hhi.
    apply FloatOrderFacts.leb_defined_r in Hlo, Hhi.
    destruct FloatOrderFacts.float_ltb_strict_weak as [_ Htrans].
    unfold search_keep.
    destruct (Template.price t <? lo)%float eqn:E1;
      [now rewrite !andb_false_r, ?andb_false_l|].
    destruct (hi <? Template.price t)%float eqn:E2;
      [now rewrite !andb_false_r, ?andb_false_l|].
    rewrite (Htrans lo (Template.price t) hi Hlo Hdb Hhi E1 E2) in Hrange.
    discriminate. }
  rewrite E. split; reflexivity.
Qed.

Lemma search_empty_price_range_witness :
  exists r,
    search_templates templates_db "pro" None (Some 100%float)
      (Some 50%float) None = Ok r /\
    SearchResponse.results r = [] /\
    SearchResponse.total r = 0.
Proof.
  apply (search_empty_price_range templates_db "pro" None
           100%float 50%float None).
  - discriminate.
  - repeat split.
  - repeat constructor.
  - reflexivity.
Defined.

(** * Invariants of the cart *)

(** What one request can do to the cart: nothing, append a fresh item for a
    template of the catalog, change one quantity in place, drop the items
    of one id, or drop everything. *)
Lemma step_cases (db : list Template.t) (c : cart) (op : cart_op) :
  fst (step db c op) = c \/
  (exists now template_id template,
     op = Add template_id now /\
     Py.next (fun t => Template.id t =? template_id) db = Some template /\
     ~ In template_id (template_ids c) /\
     fst (step db c op) =
       c ++ [CartItem.mk (Py.len c + 1) template_id template 1 now]) \/
  (exists pre item post q,
     c = pre ++ item :: post /\
     fst (step db c op) = pre ++ CartItem.set_quantity q item :: post /\
     (q = CartItem.quantity item + 1 \/ 1 <= q <= 10)) \/
  (exists item_id,
     op = Remove item_id /\
     fst (step db c op) =
       filter (fun item => negb (CartItem.id item =? item_id)) c) \/
  (op = Clear /\ fst (step db c op) = []).
Proof.
  destruct op as [template_id now|item_id quantity|item_id|]; cbn [step].
  - destruct (Py.next (fun t => Template.id t =? template_id) db)
      as [template|] eqn:Hdb.
    + destruct (in_dec Z.eq_dec template_id (template_ids c)) as [Hin|Hnew].
      * destruct (in_template_ids_split _ _ Hin)
          as (pre & item & post & -> & Hpre & Hitem).
        rewrite (add_existing _ _ _ _ _ _ _ Hdb Hpre Hitem). cbn [fst].
        right; right; left.
        exists pre, item, post, (CartItem.quantity item + 1). auto.
      * rewrite (add_new _ _ _ _ _ Hdb Hnew). cbn [fst].
        right; left. exists now, template_id, template. auto.
    + left. now rewrite (add_unknown_template _ _ _ _ Hdb).
  - destruct (update_result item_id quantity c)
      as [[_ ->]|[(_ & _ & ->)|(Hq & pre & item & post & -> & _ & _ & ->)]];
      cbn [fst]; auto.
    right; right; left. exists pre, item, post, quantity. auto.
  - right; right; right; left. exists item_id.
    split; [reflexivity|apply remove_state].
  - right; right; right; right. split; reflexivity.
Qed.

Lemma run_app (db : list Template.t) (ops1 ops2 : list cart_op) (c : cart) :
  run db (ops1 ++ ops2) c = run db ops2 (run db ops1 c).
Proof. unfold run. apply fold_left_app. Qed.

(** An invariant of every request holds after every run. *)
Lemma run_invariant (db : list Template.t) (I : cart -> Prop) :
  (forall c op, I c -> I (fst (step db c op))) ->
  forall ops c, I c -> I (run db ops c).
Proof.
  intros Hstep ops. induction ops as [|op ops IH]; intros c Hc; cbn.
  - exact Hc.
  - apply IH, Hstep, Hc.
Qed.

Lemma next_some_in {A} (p : A -> bool) (l : list A) (x : A) :
  Py.next p l = Some x -> In x l /\ p x = true.
Proof. apply find_some. Qed.

(** X15. Whatever requests are served from the empty cart, every cart
    item has a quantity of at least 1. *)
Theorem cart_quantities_positive (db : list Template.t)
    (ops : list cart_op) :
  Forall (fun item => 1 <= CartItem.quantity item) (run db ops []).
Proof.
  apply (run_invariant db
           (Forall (fun item => 1 <= CartItem.quantity item)));
    [|constructor].
  intros c op Hc.
  destruct (step_cases db c op)
    as [->|[(now & tid & t & _ & _ & _ & ->)
       |[(pre & item & post & q & -> & -> & Hq)
       |[(item_id & _ & ->)|[_ ->]]]]]; auto.
  - apply Forall_app. split; [exact Hc|]. repeat constructor. cbn. lia.
  - apply Forall_app in Hc as [Hpre Hrest].
    inversion Hrest as [|? ? Hitem Hpost]; subst.
    apply Forall_app. split; [exact Hpre|].
    constructor; [|exact Hpost]. cbn. lia.
  - rewrite Forall_forall in Hc |- *.
    intros x Hx. apply filter_In in Hx. now apply Hc.
Qed.

(** Each request keeps this of every cart item: it embeds a template of
    the catalog under that template's id and has a positive id of its
    own. *)
Lemma step_keeps_references (db : list Template.t) (c : cart) (op : cart_op) :
  Forall
    (fun item =>
       In (CartItem.template item) db /\
       Template.id (CartItem.template item) = CartItem.template_id item /\
       1 <= CartItem.id item) c ->
  Forall
    (fun item =>
       In (CartItem.template item) db /\
       Template.id (CartItem.template item) = CartItem.template_id item /\
       1 <= CartItem.id item) (fst (step db c op)).
Proof.
  intros Hc.
  destruct (step_cases db c op)
    as [->|[(now & tid & t & _ & Hdb & _ & ->)
       |[(pre & item & post & q & -> & -> & Hq)
       |[(item_id & _ & ->)|[_ ->]]]]]; auto.
  - apply Forall_app. split; [exact Hc|]. repeat constructor; cbn.
    + now apply next_some_in in Hdb.
    + apply next_some_in in Hdb as [_ Hid]. now apply Z.eqb_eq.
    + pose proof (PyFacts.len_nonneg c). lia.
  - apply Forall_app in Hc as [Hpre Hrest].
    inversion Hrest as [|? ? Hitem Hpost]; subst.
    apply Forall_app. split; [exact Hpre|].
    constructor; [|exact Hpost]. exact Hitem.
  - rewrite Forall_forall in Hc |- *.
    intros x Hx. apply filter_In in Hx. now apply Hc.
Qed.

(** X16. Whatever requests are served from the empty cart, every cart
    item embeds a template of the catalog, its [template_id] is the id of
    that template, and its own id is at least 1. *)
Theorem cart_items_reference_catalog (db : list Template.t)
    (ops : list cart_op) :
  Forall
    (fun item =>
       In (CartItem.template item) db /\
       Template.id (CartItem.template item) = CartItem.template_id item /\
       1 <= CartItem.id item)
    (run db ops []).
Proof.
  apply (run_invariant db _ (step_keeps_references db)).
  constructor.
Qed.

(** X17. Whatever requests are served from the empty cart, the cart never
    holds more items than the catalog has templates. *)
Theorem cart_no_larger_than_catalog (db : list Template.t)
    (ops : list cart_op) :
  Py.len (run db ops []) <= Py.len db.
Proof.
  pose proof (run_one_per_template db ops [] (NoDup_nil _)) as Hnd.
  pose proof (run_invariant db _ (step_keeps_references db) ops []
                (Forall_nil _)) as Hin.
  unfold one_per_template, template_ids in Hnd.
  assert (Hincl : incl (map CartItem.template_id (run db ops []))
                    (map Template.id db)).
  { intros tid Htid. apply in_map_iff in Htid as (item & <- & Hitem).
    rewrite Forall_forall in Hin.
    destruct (Hin item Hitem) as (Ht & Hid & _).
    rewrite <- Hid. now apply in_map. }
  pose proof (NoDup_incl_length Hnd Hincl) as Hlen.
  rewrite !length_map in Hlen. unfold Py.len. lia.
Qed.

(** * Cart item ids without removals *)

Lemma ids_from_one_succ (n : nat) :
  ids_from_one (S n) = ids_from_one n ++ [Z.of_nat n + 1].
Proof.
  unfold ids_from_one. rewrite seq_S, map_app. cbn [map]. do 2 f_equal. lia.
Qed.

Lemma run_ids_sequential (db : list Template.t) (ops : list cart_op)
    (c : cart) :
  forallb not_remove ops = true ->
  map CartItem.id c = ids_from_one (List.length c) ->
  map CartItem.id (run db ops c) =
  ids_from_one (List.length (run db ops c)).
Proof.
  revert c. induction ops as [|op ops IH]; intros c Hops Hc; cbn; [exact Hc|].
  cbn in Hops. apply andb_true_iff in Hops as [Hop Hops].
  apply IH; [exact Hops|].
  destruct (step_cases db c op)
    as [->|[(now & tid & t & _ & _ & _ & ->)
       |[(pre & item & post & q & -> & -> & _)
       |[(item_id & -> & _)|[_ ->]]]]]; auto.
  - rewrite map_app, length_app, Hc. cbn [map List.length CartItem.id].
    rewrite Nat.add_1_r, ids_from_one_succ. reflexivity.
  - rewrite map_app, length_app in *. exact Hc.
  - discriminate Hop.
Qed.

(** X18. As long as nothing is removed, the cart item ids are 1, 2, 3, ...
    in cart order, so no two items share an id; updates and repeated adds
    do not disturb them and a clear starts them at 1 again. *)
Theorem ids_sequential_without_removal (db : list Template.t)
    (ops : list cart_op) :
  forallb not_remove ops = true ->
  map CartItem.id (run db ops []) =
    ids_from_one (List.length (run db ops [])) /\
  NoDup (map CartItem.id (run db ops [])).
Proof.
  intros Hops.
  pose proof (run_ids_sequential db ops [] Hops eq_refl) as Hids.
  split; [exact Hids|].
  rewrite Hids. unfold ids_from_one.
  apply Finite.Injective_map_NoDup; [|apply seq_NoDup].
  intros a b. apply Nat2Z.inj.
Qed.

Lemma ids_sequential_without_removal_witness :
  map CartItem.id
    (run templates_db
       [Add 1 "2024-02-01T09:00:00"; Add 2 "2024-02-01T09:01:00";
        Update 1 3; Add 1 "2024-02-01T09:02:00";
        Add 3 "2024-02-01T09:03:00"] []) =
    ids_from_one
      (List.length
         (run templates_db
            [Add 1 "2024-02-01T09:00:00"; Add 2 "2024-02-01T09:01:00";
             Update 1 3; Add 1 "2024-02-01T09:02:00";
             Add 3 "2024-02-01T09:03:00"] [])) /\
  NoDup
    (map CartItem.id
       (run templates_db
          [Add 1 "2024-02-01T09:00:00"; Add 2 "2024-02-01T09:01:00";
           Update 1 3; Add 1 "2024-02-01T09:02:00";
           Add 3 "2024-02-01T09:03:00"] [])).
Proof.
  apply (ids_sequential_without_removal templates_db
           [Add 1 "2024-02-01T09:00:00"; Add 2 "2024-02-01T09:01:00";
            Update 1 3; Add 1 "2024-02-01T09:02:00";
            Add 3 "2024-02-01T09:03:00"]).
  reflexivity.
Defined.

(** * Update and Remove *)

(** X19. Update answers with a validation error exactly when the quantity
    is outside 1 to 10, whether or not the item exists, and with NotFound
    exactly when the quantity is within 1 to 10 and no cart item has the
    id; on either error the cart is left as it was. *)
Theorem update_errors_exact (item_id quantity : Z) (cart_db : cart) :
  (snd (update_cart_item item_id quantity cart_db) = Err ValidationError <->
   ~ 1 <= quantity <= 10) /\
  (snd (update_cart_item item_id quantity cart_db) = Err NotFound <->
   1 <= quantity <= 10 /\
   forall item, In item cart_db -> CartItem.id item <> item_id) /\
  (forall e,
     snd (update_cart_item item_id quantity cart_db) = Err e ->
     fst (update_cart_item item_id quantity cart_db) = cart_db).
Proof.
  destruct (update_result item_id quantity cart_db)
    as [[Hq ->]|[(Hq & Hnone & ->)
       |(Hq & pre & item & post & -> & Hpre & Hitem & ->)]];
    cbn [fst snd].
  - split; [tauto|]. split; [|reflexivity].
    split; [discriminate|]. intros [Hq' _]. contradiction.
  - rewrite ListFacts.next_none in Hnone.
    split; [split; [discriminate|contradiction]|]. split; [|reflexivity].
    split; [|reflexivity]. intros _. split; [exact Hq|].
    intros item Hin. now apply Z.eqb_neq, Hnone.
  - split; [split; [discriminate|contradiction]|].
    split; [|intros e; discriminate].
    split; [discriminate|]. intros [_ Hnone]. exfalso.
    apply (Hnone item); [|exact Hitem]. apply in_or_app. right. now left.
Qed.

(** X20. With a quantity from 1 to 10 and an id that some cart item has,
    Update succeeds and rewrites the quantity of the first item with that
    id and of no other: the items before and after it, later items with
    the same id included, the ids, the template ids and the order stay as
    they were. *)
Theorem update_changes_first_match (item_id quantity : Z) (cart_db : cart) :
  1 <= quantity <= 10 ->
  (exists item, In item cart_db /\ CartItem.id item = item_id) ->
  exists pre item post,
    cart_db = pre ++ item :: post /\
    (forall y, In y pre -> CartItem.id y <> item_id) /\
    CartItem.id item = item_id /\
    update_cart_item item_id quantity cart_db =
      (pre ++ CartItem.set_quantity quantity item :: post,
       Ok (CartMessage.mk "Cart item updated"
             (Some (CartItem.set_quantity quantity item)))) /\
    map CartItem.id (fst (update_cart_item item_id quantity cart_db)) =
      map CartItem.id cart_db /\
    template_ids (fst (update_cart_item item_id quantity cart_db)) =
      template_ids cart_db.
Proof.
  intros Hq (x & Hx & Hid).
  destruct (update_result item_id quantity cart_db)
    as [[Hq' _]|[(_ & Hnone & _)
       |(_ & pre & item & post & -> & Hpre & Hitem & E)]].
  - contradiction.
  - exfalso. rewrite ListFacts.next_none in Hnone.
    specialize (Hnone x Hx). apply Z.eqb_neq in Hnone. contradiction.
  - exists pre, item, post. rewrite E. cbn [fst].
    repeat split; auto.
    + now rewrite !map_app.
    + now rewrite !template_ids_app.
Qed.

Lemma update_changes_first_match_witness :
  exists pre item post,
    run templates_db
      [Add 1 "2024-02-01T09:00:00"; Add 2 "2024-02-01T09:01:00";
       Remove 1; Add 3 "2024-02-01T09:02:00"] [] = pre ++ item :: post /\
    (forall y, In y pre -> CartItem.id y <> 2) /\
    CartItem.id item = 2 /\
    update_cart_item 2 5
      (run templates_db
         [Add 1 "2024-02-01T09:00:00"; Add 2 "2024-02-01T09:01:00";
          Remove 1; Add 3 "2024-02-01T09:02:00"] []) =
      (pre ++ CartItem.set_quantity 5 item :: post,
       Ok (CartMessage.mk "Cart item updated"
             (Some (CartItem.set_quantity 5 item)))) /\
    map CartItem.id
      (fst (update_cart_item 2 5
              (run templates_db
                 [Add 1 "2024-02-01T09:00:00"; Add 2 "2024-02-01T09:01:00";
                  Remove 1; Add 3 "2024-02-01T09:02:00"] []))) =
      map CartItem.id
        (run templates_db
           [Add 1 "2024-02-01T09:00:00"; Add 2 "2024-02-01T09:01:00";
            Remove 1; Add 3 "2024-02-01T09:02:00"] []) /\
    template_ids
      (fst (update_cart_item 2 5
              (run templates_db
                 [Add 1 "2024-02-01T09:00:00"; Add 2 "2024-02-01T09:01:00";
                  Remove 1; Add 3 "2024-02-01T09:02:00"] []))) =
      template_ids
        (run templates_db
           [Add 1 "2024-02-01T09:00:00"; Add 2 "2024-02-01T09:01:00";
            Remove 1; Add 3 "2024-02-01T09:02:00"] []).
Proof.
  apply (update_changes_first_match 2 5
           (run templates_db
              [Add 1 "2024-02-01T09:00:00"; Add 2 "2024-02-01T09:01:00";
               Remove 1; Add 3 "2024-02-01T09:02:00"] [])).
  - lia.
  - eexists. split; [cbn; left; reflexivity|reflexivity].
Defined.

(** X21. After a Remove, successful or not, no cart item has the id any
    more: a second Remove of the same id answers NotFound and changes
    nothing, an Update of that id answers NotFound, and the cart is
    shorter by the number of items that had the id. *)
Theorem remove_then_gone (item_id : Z) (cart_db : cart) :
  fst (remove_from_cart item_id (fst (remove_from_cart item_id cart_db))) =
    fst (remove_from_cart item_id cart_db) /\
  snd (remove_from_cart item_id (fst (remove_from_cart item_id cart_db))) =
    Err NotFound /\
  (forall quantity, 1 <= quantity <= 10 ->
     update_cart_item item_id quantity
       (fst (remove_from_cart item_id cart_db)) =
     (fst (remove_from_cart item_id cart_db), Err NotFound)) /\
  Py.len (fst (remove_from_cart item_id cart_db)) =
    Py.len cart_db - count_id item_id cart_db.
Proof.
  rewrite !remove_state.
  set (c' := filter (fun item => negb (CartItem.id item =? item_id)) cart_db).
  assert (Hgone : forall item, In item c' -> CartItem.id item <> item_id).
  { intros item Hin. apply filter_In in Hin as [_ H].
    now apply negb_true_iff, Z.eqb_neq in H. }
  split; [|split; [|split]].
  - apply ListFacts.filter_all. intros x Hx.
    now apply negb_true_iff, Z.eqb_neq, Hgone.
  - now apply remove_not_found_iff.
  - intros quantity Hq.
    destruct (update_result item_id quantity c')
      as [[Hq' _]|[(_ & _ & E)|(_ & pre & item & post & E & _ & Hitem & _)]];
      [contradiction|exact E|].
    exfalso. apply (Hgone item); [|exact Hitem].
    rewrite E. apply in_or_app. right. now left.
  - apply (filter_split_length (fun item => CartItem.id item =? item_id)).
Qed.

(** * Quantities under Add *)

Lemma total_quantity_app (a b : cart) :
  total_quantity (a ++ b) = total_quantity a + total_quantity b.
Proof.
  unfold total_quantity. induction a as [|x a IH]; cbn; [reflexivity|].
  rewrite IH. lia.
Qed.

(** X23. A successful Add raises the sum of the quantities in the cart by
    exactly one and the number of items by at most one; a failed Add
    changes neither. *)
Theorem add_raises_total_quantity (db : list Template.t) (now : string)
    (template_id : Z) (cart_db : cart) :
  (forall m,
     snd (add_to_cart db now template_id cart_db) = Ok m ->
     total_quantity (fst (add_to_cart db now template_id cart_db)) =
       total_quantity cart_db + 1 /\
     Py.len cart_db <=
       Py.len (fst (add_to_cart db now template_id cart_db)) <=
       Py.len cart_db + 1) /\
  (forall e,
     snd (add_to_cart db now template_id cart_db) = Err e ->
     fst (add_to_cart db now template_id cart_db) = cart_db).
Proof.
  destruct (Py.next (fun t => Template.id t =? template_id) db)
    as [template|] eqn:Hdb.
  - destruct (in_dec Z.eq_dec template_id (template_ids cart_db))
      as [Hin|Hnew].
    + destruct (in_template_ids_split _ _ Hin)
        as (pre & item & post & -> & Hpre & Hitem).
      rewrite (add_existing _ _ _ _ _ _ _ Hdb Hpre Hitem). cbn [fst snd].
      split; [|discriminate]. intros m _.
      rewrite !total_quantity_app. unfold Py.len. rewrite !length_app.
      cbn. lia.
    + rewrite (add_new _ _ _ _ _ Hdb Hnew). cbn [fst snd].
      split; [|discriminate]. intros m _.
      rewrite total_quantity_app. unfold Py.len. rewrite length_app.
      cbn. lia.
  - rewrite (add_unknown_template _ _ _ _ Hdb). cbn [fst snd].
    split; [discriminate|reflexivity].
Qed.

(** * The two category endpoints *)

(** X24. For a category that is not empty, By Category and the List
    operation count the same templates, and every template on a List page
    is among the templates that By Category returns when asked for all of
    them. *)
Theorem by_category_agrees_with_list (db : list Template.t)
    (category : string) (limit offset by_limit : Z)
    (sort_by : sort_field) (order : sort_order) :
  category <> "" -> 1 <= limit <= 100 -> 0 <= offset ->
  exists r,
    get_templates db (Some category) limit offset sort_by order = Ok r /\
    ListResponse.total r =
      CategoryResponse.total
        (get_templates_by_category db category by_limit) /\
    forall t,
      In t (ListResponse.templates r) ->
      In t (CategoryResponse.templates
              (get_templates_by_category db category
                 (ListResponse.total r))).
Proof.
  intros Hc Hl Ho. eexists.
  split; [apply get_templates_valid; lia|].
  cbn [ListResponse.total ListResponse.templates].
  assert (Hcat : category_filtered db (Some category) =
                 filter (category_is category) db).
  { unfold category_filtered, Py.truthy.
    destruct category; [congruence|reflexivity]. }
  unfold get_templates_by_category.
  cbn [CategoryResponse.total CategoryResponse.templates].
  rewrite Hcat. split; [reflexivity|].
  intros t Ht.
  unfold Py.slice_to. rewrite slice_whole by lia.
  unfold Py.slice in Ht. apply SortFacts.In_firstn in Ht.
  assert (Hsk : forall (n : nat) (l : list Template.t),
            In t (skipn n l) -> In t l).
  { intros n l. rewrite <- (firstn_skipn n l) at 2.
    intros H. apply in_or_app. now right. }
  apply Hsk in Ht.
  apply (Permutation_in _ (sorted_templates_perm db (Some category)
                             sort_by order)) in Ht.
  rewrite <- category_filtered_filter, Hcat in Ht. exact Ht.
Qed.

Lemma by_category_agrees_with_list_witness :
  exists r,
    get_templates templates_db (Some "Blog") 10 0 Price Asc = Ok r /\
    ListResponse.total r =
      CategoryResponse.total
        (get_templates_by_category templates_db "Blog" 20) /\
    forall t,
      In t (ListResponse.templates r) ->
      In t (CategoryResponse.templates
              (get_templates_by_category templates_db "Blog"
                 (ListResponse.total r))).
Proof.
  apply (by_category_agrees_with_list templates_db "Blog" 10 0 20 Price Asc).
  - discriminate.
  - lia.
  - lia.
Defined.

(** * Requests in a row *)

Lemma update_at (item_id quantity : Z) (pre : cart) (item : CartItem.t)
    (post : cart) :
  1 <= quantity <= 10 ->
  (forall y, In y pre -> CartItem.id y <> item_id) ->
  CartItem.id item = item_id ->
  update_cart_item item_id quantity (pre ++ item :: post) =
  (pre ++ CartItem.set_quantity quantity item :: post,
   Ok (CartMessage.mk "Cart item updated"
         (Some (CartItem.set_quantity quantity item)))).
Proof.
  intros Hq Hpre Hitem. unfold update_cart_item.
  replace ((1 <=? quantity) && (quantity <=? 10))%bool with true
    by (symmetry; rewrite andb_true_iff, !Z.leb_le; lia).
  cbn [negb].
  assert (Hskip : forall y, In y pre -> (CartItem.id y =? item_id) = false)
    by (intros y Hy; now apply Z.eqb_neq, Hpre).
  assert (Hhit : (CartItem.id item =? item_id) = true) by now apply Z.eqb_eq.
  rewrite (ListFacts.next_app_skip _ pre item post Hskip Hhit).
  now rewrite (ListFacts.modify_first_app_skip _ _ pre item post Hskip Hhit).
Qed.

(** X25. Of two Updates of the same id with quantities from 1 to 10 the
    second one decides: the cart after both is the cart after the second
    alone, so repeating an Update changes nothing further. *)
Theorem update_last_write_wins (item_id q1 q2 : Z) (cart_db : cart) :
  1 <= q1 <= 10 -> 1 <= q2 <= 10 ->
  fst (update_cart_item item_id q2
         (fst (update_cart_item item_id q1 cart_db))) =
    fst (update_cart_item item_id q2 cart_db) /\
  snd (update_cart_item item_id q2
         (fst (update_cart_item item_id q1 cart_db))) =
    snd (update_cart_item item_id q2 cart_db).
Proof.
  intros H1 H2.
  destruct (update_result item_id q1 cart_db)
    as [[Hq' _]|[(_ & _ & ->)
       |(_ & pre & item & post & -> & Hpre & Hitem & ->)]];
    [contradiction|split; reflexivity|].
  cbn [fst].
  rewrite (update_at item_id q2 pre item post H2 Hpre Hitem).
  rewrite (update_at item_id q2 pre (CartItem.set_quantity q1 item) post
             H2 Hpre) by (now destruct item).
  now destruct item.
Qed.

Lemma update_last_write_wins_witness :
  fst (update_cart_item 1 7
         (fst (update_cart_item 1 3
                 (run templates_db [Add 1 "2024-02-01T09:00:00"] [])))) =
    fst (update_cart_item 1 7
           (run templates_db [Add 1 "2024-02-01T09:00:00"] [])) /\
  snd (update_cart_item 1 7
         (fst (update_cart_item 1 3
                 (run templates_db [Add 1 "2024-02-01T09:00:00"] [])))) =
    snd (update_cart_item 1 7
           (run templates_db [Add 1 "2024-02-01T09:00:00"] [])).
Proof.
  apply (update_last_write_wins 1 3 7
           (run templates_db [Add 1 "2024-02-01T09:00:00"] [])); lia.
Defined.

(** X26. Adding a template that the cart does not hold and then removing
    the id of the new item gives the cart back as it was, provided no
    item of the cart already carried that id, [len(cart) + 1]. *)
Theorem add_then_remove_restores (db : list Template.t) (now : string)
    (template_id : Z) (template : Template.t) (cart_db : cart) :
  Py.next (fun t => Template.id t =? template_id) db = Some template ->
  ~ In template_id (template_ids cart_db) ->
  (forall item, In item cart_db -> CartItem.id item <> Py.len cart_db + 1) ->
  remove_from_cart (Py.len cart_db + 1)
    (fst (add_to_cart db now template_id cart_db)) =
  (cart_db, Ok (CartMessage.mk "Item removed from cart" None)).
Proof.
  intros Hdb Hnew Hfresh.
  rewrite (add_new _ _ _ _ _ Hdb Hnew). cbn [fst].
  unfold remove_from_cart.
  rewrite filter_app. cbn [filter CartItem.id].
  rewrite Z.eqb_refl. cbn [negb]. rewrite app_nil_r.
  rewrite ListFacts.filter_all
    by (intros x Hx; now apply negb_true_iff, Z.eqb_neq, Hfresh).
  unfold Py.len. rewrite length_app. cbn [List.length].
  destruct (Z.of_nat (List.length cart_db) =?
            Z.of_nat (List.length cart_db + 1)) eqn:E; [|reflexivity].
  apply Z.eqb_eq in E. lia.
Qed.

Lemma add_then_remove_restores_witness :
  match nth_error templates_db 1 with
  | Some template =>
      remove_from_cart
        (Py.len (run templates_db [Add 1 "2024-02-01T09:00:00"] []) + 1)
        (fst (add_to_cart templates_db "2024-02-01T09:01:00" 2
                (run templates_db [Add 1 "2024-02-01T09:00:00"] []))) =
      (run templates_db [Add 1 "2024-02-01T09:00:00"] [],
       Ok (CartMessage.mk "Item removed from cart" None))
  | None => False
  end.
Proof.
  cbn [nth_error templates_db].
  eapply (add_then_remove_restores templates_db "2024-02-01T09:01:00" 2 _
            (run templates_db [Add 1 "2024-02-01T09:00:00"] [])).
  - reflexivity.
  - cbn. intuition discriminate.
  - intros item [<-|[]]. cbn. discriminate.
Defined.

(** * The first page against the rest *)

(** X6. The first page of a listing holds the front of the order: for a
    valid limit and a catalog whose ratings and prices are numbers, the
    templates of the first page and those of the category that are left
    off it make up the category-filtered catalog, and each template on the
    page may stand before each one left off it: in descending order none
    left off has a larger key, in ascending order none has a smaller
    one. *)
Theorem list_first_page_is_top (db : list Template.t)
    (category : option string) (limit : Z)
    (sort_by : sort_field) (order : sort_order) :
  1 <= limit <= 100 ->
  Forall (fun t => key_defined sort_by t = true) db ->
  exists r rest,
    get_templates db category limit 0 sort_by order = Ok r /\
    Permutation (ListResponse.templates r ++ rest)
      (filter (in_category category) db) /\
    forall a b,
      In a (ListResponse.templates r) -> In b rest ->
      in_order sort_by order a b.
Proof.
  intros Hl Hdb.
  pose proof (sorted_templates_in_order db category sort_by order Hdb) as Hs.
  pose proof (sorted_templates_perm db category sort_by order) as Hperm.
  set (sorted := sorted_templates db category sort_by order) in *.
  exists (ListResponse.mk (Py.slice sorted 0 (0 + limit))
            (Py.len (category_filtered db category)) limit 0
            (0 + limit <? Py.len (category_filtered db category))),
         (skipn (Z.to_nat limit) sorted).
  split; [apply get_templates_valid; lia|].
  cbn [ListResponse.templates].
  rewrite PyFacts.slice_nonneg by lia.
  replace (0 + limit - 0) with limit by lia. cbn [Z.to_nat skipn].
  rewrite <- (firstn_skipn (Z.to_nat limit) sorted) in Hs.
  destruct (StronglySorted_app_cross _ _ _ Hs) as [_ Hcross].
  split; [now rewrite firstn_skipn|exact Hcross].
Qed.

Lemma list_first_page_is_top_witness :
  exists r rest,
    get_templates templates_db None 5 0 Downloads Desc = Ok r /\
    Permutation (ListResponse.templates r ++ rest)
      (filter (in_category None) templates_db) /\
    forall a b,
      In a (ListResponse.templates r) -> In b rest ->
      in_order Downloads Desc a b.
Proof.
  apply (list_first_page_is_top templates_db None 5 Downloads Desc).
  - lia.
  - repeat constructor.
Defined.
